(** * The transaction execution controller of tron-sdk

    A shallow embedding of [pkg/client/transaction/controller.go]: the
    [Controller] struct, its three pipeline stages (sign, broadcast,
    confirm), the hash accessor and [ExecuteTransaction].

    Conventions of the embedding.
    - The controller is a Go struct mutated through a pointer receiver; here
      every method is a computation in a state monad [M] whose state holds
      the controller and the chronological trace of the calls made to the
      outside world (key store, hardware signer, network client, sleep).
    - The collaborators are not part of the package.  They are the fields of
      the class [World]; an answer may depend on everything that happened
      before (the trace), so one [World] describes one possible execution
      environment, and a statement quantified over [World] speaks about
      every execution.
    - A Go pair [(v, err)] whose value is used only when [err == nil] is a
      [result]; [proto.Marshal], whose error is dropped at one call site,
      keeps both components.
    - Pointers that the code dereferences without a check ([C.Tx],
      [C.Sender.Account], the answers of the client when [err == nil]) are
      values here: a nil dereference (a panic) is outside the model.
    - The key store answers with a transaction (or an error) and leaves the
      transaction it was given alone; the hardware path appends to the
      signature list of [C.Tx] in place, which is an update of the [Tx]
      field here.
    - [proto.Marshal], the SHA-256 digest and [common.ToHex] are functions
      of their argument (the encoding is deterministic).
    - [int] is the 64-bit two's complement integer of the platforms the SDK
      is built for; its wrap-around is [int_wrap]. *)

From Stdlib Require Import ZArith NArith List String Ascii Strings.Byte Bool Lia.
From Stdlib Require Import DecimalString.
From Equations Require Import Equations.
Import ListNotations.

Local Open Scope string_scope.
Local Open Scope list_scope.
Local Open Scope Z_scope.

(** ** Go values *)

(** A Go [error] value; the only thing the controller or its callers can
    observe of it is the text returned by [Error()]. *)
Record error : Type := errors_New { Error : string }.

(** The pair [(v, err)] returned by a fallible call. *)
Inductive result (T : Type) : Type :=
| Ok (v : T)
| Err (err : error).
Arguments Ok {T} v.
Arguments Err {T} err.

(** [[]byte] and the conversion [string(b)]. *)
Definition bytes := list byte.
Definition string_of_bytes (b : bytes) : string := string_of_list_byte b.

(** The verb [%d] applied to an unsigned integer. *)
Definition fmt_d (n : N) : string := NilZero.string_of_uint (N.to_uint n).

(** Two's complement wrap-around of the 64-bit [int]. *)
Definition int_wrap (z : Z) : Z := (z + 2 ^ 63) mod 2 ^ 64 - 2 ^ 63.

(** The conversion [int(w)] of a [uint32]. *)
Definition int_of_uint32 (w : N) : Z := int_wrap (Z.of_N w).

(** ** Protocol messages *)

Module core.

(** Modelled from the spec: package [pkg/proto/core] (generated protobuf
    code) is not among the sources.  The raw payload of a transaction is
    an opaque record for the controller, which only hands it to
    [proto.Marshal]. *)
Record TransactionRaw : Type := {
  Data : bytes;
  Timestamp : Z;
  Expiration : Z;
  FeeLimit : Z
}.

(** Modelled from the spec: package [pkg/proto/core] is not among the
    sources.  A transaction is its raw payload (a pointer, nil when
    absent) and the list of attached signatures. *)
Record Transaction : Type := {
  RawData : option TransactionRaw;
  Signature : list bytes
}.

(** Modelled from the spec: package [pkg/proto/core] is not among the
    sources.  The resource usage part of a receipt. *)
Record ResourceReceipt : Type := {
  EnergyUsage : Z;
  EnergyFee : Z;
  NetUsage : Z;
  NetFee : Z
}.

(** Modelled from the spec: package [pkg/proto/core] is not among the
    sources.  The receipt of a transaction: status ([Result], zero for
    success), result message and resource usage. *)
Record TransactionInfo : Type := {
  Id : bytes;
  Fee : Z;
  BlockNumber : Z;
  Receipt : option ResourceReceipt;
  Result : Z;
  ResMessage : bytes
}.

(** The Go zero values [&core.ResourceReceipt{}] and
    [&core.TransactionInfo{}]. *)
Definition zero_ResourceReceipt : ResourceReceipt :=
  {| EnergyUsage := 0; EnergyFee := 0; NetUsage := 0; NetFee := 0 |}.

Definition zero_TransactionInfo : TransactionInfo :=
  {| Id := []; Fee := 0; BlockNumber := 0; Receipt := None;
     Result := 0; ResMessage := [] |}.

Definition set_Receipt (r : option ResourceReceipt) (t : TransactionInfo)
  : TransactionInfo :=
  {| Id := Id t; Fee := Fee t; BlockNumber := BlockNumber t; Receipt := r;
     Result := Result t; ResMessage := ResMessage t |}.

Definition set_Signature (sigs : list bytes) (t : Transaction) : Transaction :=
  {| RawData := RawData t; Signature := sigs |}.

End core.

Module api.

(** Modelled from the spec: package [pkg/proto/api] is not among the
    sources.  The acknowledgment of a broadcast: a status code (zero for
    acceptance) and a message. *)
Record Return : Type := {
  Result : bool;
  Code : Z;
  Message : bytes
}.

End api.

Module keystore.

(** Modelled from the spec: package [pkg/keystore] is not among the
    sources.  An account is identified by its address. *)
Record Account : Type := { Address : bytes }.

End keystore.

(** ** The outside world *)

(** One entry per call that leaves the controller, with the answer it got.
    [EvSleep d] is [time.Sleep(d)]. *)
Inductive event : Type :=
| EvKeyStoreSignTx (a : keystore.Account) (tx : core.Transaction)
                   (r : result core.Transaction)
| EvLedgerSignTx (data : bytes) (r : result bytes)
| EvBroadcast (tx : core.Transaction) (r : result api.Return)
| EvGetTransactionInfoByID (id : string) (r : result core.TransactionInfo)
| EvSleep (d : Z).

Definition trace := list event.

(** The collaborators.  The first four answer as a function of the history;
    encoding, digest and hexadecimal printing are functions of their
    argument. *)
Class World : Type := {
  KeyStore_SignTx :
    trace -> keystore.Account -> core.Transaction -> result core.Transaction;
  ledger_SignTx : trace -> bytes -> result bytes;
  GrpcClient_Broadcast : trace -> core.Transaction -> result api.Return;
  GrpcClient_GetTransactionInfoByID :
    trace -> string -> result core.TransactionInfo;
  proto_Marshal : option core.TransactionRaw -> bytes * option error;
  sha256_Sum : bytes -> bytes;
  common_ToHex : bytes -> string
}.

(** ** The controller *)

(** Modelled from the spec: the declaration of [SignerImpl] and of its
    constants [Software] and [Ledger] (the hardware signer) is in another
    file of the package.  The [switch] compares the field with the two
    constants, so the type is taken as an integer type, as a Go
    enumeration is, and the constants as two distinct values of it; the
    statements below use only that they are distinct. *)
Definition SignerImpl : Type := Z.
Definition Software : SignerImpl := 0.
Definition Ledger : SignerImpl := 1.

(** The handles [C.Client] and [C.Sender.Ks] are not fields of the
    records below: the objects they point to are the [World]. *)
Record sender : Type := { Account : keystore.Account }.

Record behavior : Type := {
  DryRun : bool;
  SigningImpl : SignerImpl;
  ConfirmationWaitTime : N
}.

Record Controller : Type := {
  ExecutionError : option error;
  resultError : option error;
  Tx : core.Transaction;
  Sender : sender;
  Behavior : behavior;
  Result : option api.Return;
  Receipt : option core.TransactionInfo
}.

Definition set_ExecutionError (e : option error) (c : Controller) : Controller :=
  {| ExecutionError := e; resultError := resultError c; Tx := Tx c;
     Sender := Sender c; Behavior := Behavior c; Result := Result c;
     Receipt := Receipt c |}.

Definition set_resultError (e : option error) (c : Controller) : Controller :=
  {| ExecutionError := ExecutionError c; resultError := e; Tx := Tx c;
     Sender := Sender c; Behavior := Behavior c; Result := Result c;
     Receipt := Receipt c |}.

Definition set_Tx (tx : core.Transaction) (c : Controller) : Controller :=
  {| ExecutionError := ExecutionError c; resultError := resultError c; Tx := tx;
     Sender := Sender c; Behavior := Behavior c; Result := Result c;
     Receipt := Receipt c |}.

Definition set_Behavior (b : behavior) (c : Controller) : Controller :=
  {| ExecutionError := ExecutionError c; resultError := resultError c; Tx := Tx c;
     Sender := Sender c; Behavior := b; Result := Result c;
     Receipt := Receipt c |}.

Definition set_Result (r : option api.Return) (c : Controller) : Controller :=
  {| ExecutionError := ExecutionError c; resultError := resultError c; Tx := Tx c;
     Sender := Sender c; Behavior := Behavior c; Result := r;
     Receipt := Receipt c |}.

Definition set_Receipt (r : option core.TransactionInfo) (c : Controller)
  : Controller :=
  {| ExecutionError := ExecutionError c; resultError := resultError c; Tx := Tx c;
     Sender := Sender c; Behavior := Behavior c; Result := Result c;
     Receipt := r |}.

(** [NewController]: the fields not listed in the composite literal
    ([Result], [Receipt]) get their zero value, then the options run in
    order. *)
Definition NewController (senderAcct : keystore.Account) (tx : core.Transaction)
  (options : list (Controller -> Controller)) : Controller :=
  let ctrlr :=
    {| ExecutionError := None; resultError := None; Tx := tx;
       Sender := {| Account := senderAcct |};
       Behavior := {| DryRun := false; SigningImpl := Software;
                      ConfirmationWaitTime := 0 |};
       Result := None; Receipt := None |} in
  fold_left (fun c option => option c) options ctrlr.

(** ** The monad of the methods *)

Record State : Type := { ctrl : Controller; history : trace }.

Definition M (A : Type) : Type := State -> A * State.

Definition ret {A} (a : A) : M A := fun s => (a, s).

Definition bind {A B} (m : M A) (k : A -> M B) : M B :=
  fun s => let (a, s') := m s in k a s'.

Declare Scope go_scope.
Delimit Scope go_scope with go.
Notation "x <- m ;; k" := (bind m (fun x => k))
  (at level 61, m at next level, right associativity) : go_scope.
Notation "m ;; k" := (bind m (fun _ => k))
  (at level 61, right associativity) : go_scope.
Local Open Scope go_scope.

(** Read the controller; update it; record a call with its answer. *)
Definition this : M Controller := fun s => (ctrl s, s).

Definition update (f : Controller -> Controller) (s : State) : State :=
  {| ctrl := f (ctrl s); history := history s |}.

Definition record (ev : event) (s : State) : State :=
  {| ctrl := ctrl s; history := history s ++ [ev] |}.

Definition assign (f : Controller -> Controller) : M unit :=
  fun s => (tt, update f s).

Definition call {A} (answer : trace -> A) (ev : A -> event) : M A :=
  fun s => let a := answer (history s) in (a, record (ev a) s).

Definition time_Sleep (d : Z) : M unit :=
  call (fun _ => tt) (fun _ => EvSleep d).

(** [time.Second], a [Duration] in nanoseconds. *)
Definition time_Second : Z := 1000000000.

Notation "' pat <- m ;; k" := (bind m (fun x => match x with pat => k end))
  (at level 61, pat pattern, m at next level, right associativity) : go_scope.

(** [p != nil] for a pointer or an interface value. *)
Definition not_nil {A} (p : option A) : bool :=
  match p with Some _ => true | None => false end.

(** [C.Tx.Signature = append(C.Tx.Signature, signature)]. *)
Definition append_signature (signature : bytes) (c : Controller) : Controller :=
  set_Tx (core.set_Signature (core.Signature (Tx c) ++ [signature]) (Tx c)) c.

(** ** The methods of the controller *)

Section Methods.

Context {W : World}.

(** [GetRawData]: [proto.Marshal(C.Tx.GetRawData())]. *)
Definition GetRawData : M (bytes * option error) :=
  C <- this ;;
  ret (proto_Marshal (core.RawData (Tx C))).

Definition SignTxForSending : M unit :=
  C <- this ;;
  if not_nil (ExecutionError C) then ret tt
  else
    r <- call (fun h => KeyStore_SignTx h (Account (Sender C)) (Tx C))
              (EvKeyStoreSignTx (Account (Sender C)) (Tx C)) ;;
    match r with
    | Err err => assign (set_ExecutionError (Some err))
    | Ok signedTransaction => assign (set_Tx signedTransaction)
    end.

(** The error of [GetRawData] is bound to the blank identifier. *)
Definition HardwareSignTxForSending : M unit :=
  C <- this ;;
  if not_nil (ExecutionError C) then ret tt
  else
    '(data, _) <- GetRawData ;;
    r <- call (fun h => ledger_SignTx h data) (EvLedgerSignTx data) ;;
    match r with
    | Err err => assign (set_ExecutionError (Some err))
    | Ok signature =>
      assign (append_signature signature)
    end.

Definition TransactionHash : M (string * option error) :=
  '(rawData, err) <- GetRawData ;;
  match err with
  | Some err => ret ("", Some err)
  | None =>
    let hash := sha256_Sum rawData in
    ret (common_ToHex hash, None)
  end.

(** The [for] loop of [TxConfirmation], entered with the remaining budget
    [start].  The counter is decremented only when it is not negative, so
    the distance of [start] to -1 decreases at every turn. *)
Equations? confirmation_loop (txHash : string) (start : Z) (s : State)
  : unit * State by wf (Z.to_nat (start + 1)) lt :=
  confirmation_loop txHash start s
    with call (fun h => GrpcClient_GetTransactionInfoByID h txHash)
              (EvGetTransactionInfoByID txHash) s => {
    | (Ok txi, s1) =>
        ((if negb (core.Result txi =? 0)
          then assign (set_resultError
                 (Some (errors_New (string_of_bytes (core.ResMessage txi)))))
          else ret tt) ;;
         assign (set_Receipt (Some txi))) s1
    | (Err _, s1) with Z_lt_dec start 0 => {
      | left _ =>
          (C <- this ;;
           assign (set_ExecutionError (Some (errors_New
             ("could not confirm transaction after "
              ++ fmt_d (ConfirmationWaitTime (Behavior C))
              ++ " seconds")%string)))) s1
      | right _ =>
          let (_, s2) := time_Sleep time_Second s1 in
          confirmation_loop txHash (int_wrap (start - 1)) s2 } }.
Proof.
  assert (int_wrap (start - 1) <= start - 1); [| lia].
  unfold int_wrap.
  pose proof (Z.mod_le (start - 1 + 2 ^ 63) (2 ^ 64)). lia.
Qed.

Definition TxConfirmation : M unit :=
  C <- this ;;
  if not_nil (ExecutionError C) || DryRun (Behavior C) then ret tt
  else if (0 <? ConfirmationWaitTime (Behavior C))%N then
    '(txHash, err) <- TransactionHash ;;
    match err with
    | Some _ =>
      assign (set_ExecutionError (Some (errors_New "could not get Tx hash")))
    | None =>
      let start := int_of_uint32 (ConfirmationWaitTime (Behavior C)) in
      confirmation_loop txHash start
    end
  else
    assign (set_Receipt (Some core.zero_TransactionInfo)) ;;
    assign (fun C =>
      set_Receipt
        (option_map (core.set_Receipt (Some core.zero_ResourceReceipt))
                    (Receipt C)) C).

Definition GetResultError : M (option error) :=
  C <- this ;;
  ret (resultError C).

Definition SendSignedTx : M unit :=
  C <- this ;;
  if not_nil (ExecutionError C) || DryRun (Behavior C) then ret tt
  else
    r <- call (fun h => GrpcClient_Broadcast h (Tx C)) (EvBroadcast (Tx C)) ;;
    match r with
    | Err err => assign (set_ExecutionError (Some err))
    | Ok result =>
      (if negb (api.Code result =? 0)
       then assign (set_ExecutionError (Some (errors_New
              ("bad transaction: " ++ string_of_bytes (api.Message result))%string)))
       else ret tt) ;;
      assign (set_Result (Some result))
    end.

(** The [switch] statement of [ExecuteTransaction]; it has no default
    case. *)
Definition switch_SigningImpl : M unit :=
  C <- this ;;
  if SigningImpl (Behavior C) =? Software then SignTxForSending
  else if SigningImpl (Behavior C) =? Ledger then HardwareSignTxForSending
  else ret tt.

Definition ExecuteTransaction : M (option error) :=
  switch_SigningImpl ;;
  SendSignedTx ;;
  TxConfirmation ;;
  C <- this ;;
  ret (ExecutionError C).

End Methods.

(** ** Observations on a trace *)

Definition is_query (e : event) : bool :=
  match e with EvGetTransactionInfoByID _ _ => true | _ => false end.

Definition is_broadcast (e : event) : bool :=
  match e with EvBroadcast _ _ => true | _ => false end.

Definition is_sleep (e : event) : bool :=
  match e with EvSleep _ => true | _ => false end.

Definition is_signing (e : event) : bool :=
  match e with
  | EvKeyStoreSignTx _ _ _ | EvLedgerSignTx _ _ => true
  | _ => false
  end.

(** The events of the confirmation loop. *)
Definition is_poll (e : event) : bool := is_query e || is_sleep e.

(** How many entries of a trace satisfy [p]. *)
Definition count (p : event -> bool) (t : trace) : nat :=
  List.length (filter p t).

(** The acknowledgment of the first broadcast that was answered, and the
    receipt of the first lookup that found one. *)
Fixpoint acknowledgment (t : trace) : option api.Return :=
  match t with
  | [] => None
  | EvBroadcast _ (Ok ack) :: _ => Some ack
  | _ :: t' => acknowledgment t'
  end.

Fixpoint receipt_found (t : trace) : option core.TransactionInfo :=
  match t with
  | [] => None
  | EvGetTransactionInfoByID _ (Ok txi) :: _ => Some txi
  | _ :: t' => receipt_found t'
  end.

(** What happened between two states of one execution. *)
Definition events_since (s s' : State) : trace :=
  skipn (List.length (history s)) (history s').

(** [text] occurs inside [s]. *)
Definition contains (s text : string) : Prop :=
  exists before after, s = (before ++ text ++ after)%string.

(** ** Test doubles

    A scripted world: the signer and the broadcast give a fixed answer, the
    [n]-th receipt lookup (counted from 0) answers [receipts n], the
    encoding of any payload is [enc].  The digest and the hexadecimal
    printer are stand-ins; no statement below depends on what they
    compute. *)
Definition scripted (sig : result bytes) (ack : result api.Return)
  (receipts : nat -> result core.TransactionInfo) (enc : bytes * option error)
  : World :=
  {| KeyStore_SignTx _ _ tx :=
       match sig with
       | Ok sg => Ok (core.set_Signature (core.Signature tx ++ [sg]) tx)
       | Err e => Err e
       end;
     ledger_SignTx _ _ := sig;
     GrpcClient_Broadcast _ _ := ack;
     GrpcClient_GetTransactionInfoByID h _ := receipts (count is_query h);
     proto_Marshal _ := enc;
     sha256_Sum b := b;
     common_ToHex b := string_of_bytes b |}.

Definition not_found : error := errors_New "transaction info not found".

Definition a_signature : bytes := [x30; x45].
Definition a_payload : bytes := [x0a; x02].

Definition a_transaction : core.Transaction :=
  {| core.RawData := Some {| core.Data := []; core.Timestamp := 1;
                             core.Expiration := 2; core.FeeLimit := 0 |};
     core.Signature := [] |}.

Definition an_account : keystore.Account :=
  {| keystore.Address := [x41] |}.

(** Options in the style of the package: each sets one field of the
    behaviour. *)
Definition WithDryRun (b : bool) (c : Controller) : Controller :=
  set_Behavior {| DryRun := b; SigningImpl := SigningImpl (Behavior c);
                  ConfirmationWaitTime := ConfirmationWaitTime (Behavior c) |} c.

Definition WithSigningImpl (i : SignerImpl) (c : Controller) : Controller :=
  set_Behavior {| DryRun := DryRun (Behavior c); SigningImpl := i;
                  ConfirmationWaitTime := ConfirmationWaitTime (Behavior c) |} c.

Definition WithConfirmationWaitTime (w : N) (c : Controller) : Controller :=
  set_Behavior {| DryRun := DryRun (Behavior c);
                  SigningImpl := SigningImpl (Behavior c);
                  ConfirmationWaitTime := w |} c.

Definition start_of (c : Controller) : State := {| ctrl := c; history := [] |}.

(** The state in which a controller made by [NewController] starts. *)
Definition fresh (options : list (Controller -> Controller)) : State :=
  start_of (NewController an_account a_transaction options).

(** A broadcast that the network rejects. *)
Definition rejection : api.Return :=
  {| api.Result := false; api.Code := 1;
     api.Message := [x62; x61; x64] |}.

Definition acceptance : api.Return :=
  {| api.Result := true; api.Code := 0; api.Message := [] |}.

Definition rejecting_world : World :=
  scripted (Ok a_signature) (Ok rejection) (fun _ => Err not_found)
           (a_payload, None).

(** A network that accepts the broadcast and never has the receipt. *)
Definition silent_world : World :=
  scripted (Ok a_signature) (Ok acceptance) (fun _ => Err not_found)
           (a_payload, None).

(** A network that accepts the broadcast; the receipt is there at the
    second lookup and reports a failed execution. *)
Definition reverted : core.TransactionInfo :=
  {| core.Id := a_payload; core.Fee := 100; core.BlockNumber := 7;
     core.Receipt := Some core.zero_ResourceReceipt;
     core.Result := 1; core.ResMessage := [x6f; x6f; x67] |}.

Definition reverting_world : World :=
  scripted (Ok a_signature) (Ok acceptance)
           (fun n => if (n <? 1)%nat then Err not_found else Ok reverted)
           (a_payload, None).

(** A transaction whose payload cannot be encoded. *)
Definition unencodable_world : World :=
  scripted (Ok a_signature) (Ok acceptance) (fun _ => Err not_found)
           ([], Some (errors_New "proto: required field not set")).

(** ** Frames

    One state follows another in an execution: its history extends the
    other's. *)
Definition follows (s s' : State) : Prop :=
  history s' = history s ++ events_since s s'.

(** What the signing stage leaves alone, and the kind of calls it
    makes. *)
Record signed (s s1 : State) : Prop := {
  signed_follows : follows s s1;
  signed_events : forallb is_signing (events_since s s1) = true;
  signed_resultError : resultError (ctrl s1) = resultError (ctrl s);
  signed_Behavior : Behavior (ctrl s1) = Behavior (ctrl s);
  signed_Result : Result (ctrl s1) = Result (ctrl s);
  signed_Receipt : Receipt (ctrl s1) = Receipt (ctrl s)
}.

(** ** Outcomes of the stages

    The broadcast step and the confirmation step as relations between the
    state before and the state after, one constructor per way through the
    code; [polled] is the confirmation loop, one constructor per way
    through its body.  They are shown below to describe the functions. *)

Definition bad_transaction (ack : api.Return) : error :=
  errors_New ("bad transaction: " ++ string_of_bytes (api.Message ack))%string.

Definition could_not_confirm (c : Controller) : error :=
  errors_New ("could not confirm transaction after "
              ++ fmt_d (ConfirmationWaitTime (Behavior c)) ++ " seconds")%string.

Definition could_not_hash : error := errors_New "could not get Tx hash".

(** The controller after a receipt was obtained. *)
Definition store_receipt (txi : core.TransactionInfo) (c : Controller)
  : Controller :=
  set_Receipt (Some txi)
    (if negb (core.Result txi =? 0)
     then set_resultError
            (Some (errors_New (string_of_bytes (core.ResMessage txi)))) c
     else c).

(** The receipt synthesized when the caller does not wait. *)
Definition empty_receipt : core.TransactionInfo :=
  core.set_Receipt (Some core.zero_ResourceReceipt) core.zero_TransactionInfo.

(** The guard at the head of [SendSignedTx] and of [TxConfirmation]. *)
Definition skips (c : Controller) : bool :=
  not_nil (ExecutionError c) || DryRun (Behavior c).

Section Outcomes.

Context {W : World}.

Inductive sent (s : State) : State -> Prop :=
| sent_skipped :
    skips (ctrl s) = true -> sent s s
| sent_failed err :
    skips (ctrl s) = false ->
    GrpcClient_Broadcast (history s) (Tx (ctrl s)) = Err err ->
    sent s (update (set_ExecutionError (Some err))
              (record (EvBroadcast (Tx (ctrl s)) (Err err)) s))
| sent_rejected ack :
    skips (ctrl s) = false ->
    GrpcClient_Broadcast (history s) (Tx (ctrl s)) = Ok ack ->
    api.Code ack <> 0 ->
    sent s (update (fun c => set_Result (Some ack)
                      (set_ExecutionError (Some (bad_transaction ack)) c))
              (record (EvBroadcast (Tx (ctrl s)) (Ok ack)) s))
| sent_accepted ack :
    skips (ctrl s) = false ->
    GrpcClient_Broadcast (history s) (Tx (ctrl s)) = Ok ack ->
    api.Code ack = 0 ->
    sent s (update (set_Result (Some ack))
              (record (EvBroadcast (Tx (ctrl s)) (Ok ack)) s)).

Inductive polled (txHash : string) : Z -> State -> State -> Prop :=
| polled_found start s txi :
    GrpcClient_GetTransactionInfoByID (history s) txHash = Ok txi ->
    polled txHash start s
      (update (store_receipt txi)
         (record (EvGetTransactionInfoByID txHash (Ok txi)) s))
| polled_out start s err :
    GrpcClient_GetTransactionInfoByID (history s) txHash = Err err ->
    start < 0 ->
    polled txHash start s
      (update (fun c => set_ExecutionError (Some (could_not_confirm c)) c)
         (record (EvGetTransactionInfoByID txHash (Err err)) s))
| polled_again start s err s' :
    GrpcClient_GetTransactionInfoByID (history s) txHash = Err err ->
    0 <= start ->
    polled txHash (int_wrap (start - 1))
      (record (EvSleep time_Second)
         (record (EvGetTransactionInfoByID txHash (Err err)) s)) s' ->
    polled txHash start s s'.

Inductive confirmed (s : State) : State -> Prop :=
| confirmation_skipped :
    skips (ctrl s) = true -> confirmed s s
| confirmation_not_awaited :
    skips (ctrl s) = false ->
    ConfirmationWaitTime (Behavior (ctrl s)) = 0%N ->
    confirmed s (update (set_Receipt (Some empty_receipt)) s)
| confirmation_without_hash data err :
    skips (ctrl s) = false ->
    (0 < ConfirmationWaitTime (Behavior (ctrl s)))%N ->
    proto_Marshal (core.RawData (Tx (ctrl s))) = (data, Some err) ->
    confirmed s (update (set_ExecutionError (Some could_not_hash)) s)
| confirmation_polled data s' :
    skips (ctrl s) = false ->
    (0 < ConfirmationWaitTime (Behavior (ctrl s)))%N ->
    proto_Marshal (core.RawData (Tx (ctrl s))) = (data, None) ->
    polled (common_ToHex (sha256_Sum data))
           (int_of_uint32 (ConfirmationWaitTime (Behavior (ctrl s)))) s s' ->
    confirmed s s'.

End Outcomes.

(** ** Statements of the specification that the code does not meet *)

(** "Whenever the fatal error is set, the acknowledgment and the receipt
    are unset." *)
Definition unset_after_error (c : Controller) : Prop :=
  ExecutionError c <> None -> Result c = None /\ Receipt c = None.

(** "The receipt field holds an empty receipt: zero status, zero resource
    usage." *)
Definition holds_empty_receipt (c : Controller) : Prop :=
  exists txi, Receipt c = Some txi /\ core.Result txi = 0 /\
              core.Receipt txi = Some core.zero_ResourceReceipt.

(** The first error of a list of error slots. *)
Fixpoint first_error (slots : list (option error)) : option error :=
  match slots with
  | [] => None
  | Some e :: _ => Some e
  | None :: rest => first_error rest
  end.

(** ** Outcomes of the signing stage

    The [switch] of [ExecuteTransaction] together with the signing method
    it selects, one constructor per way through the code. *)

Section Dispatch.

Context {W : World}.

Inductive dispatched (s : State) : State -> Prop :=
| dispatched_nowhere :
    SigningImpl (Behavior (ctrl s)) <> Software ->
    SigningImpl (Behavior (ctrl s)) <> Ledger ->
    dispatched s s
| dispatched_after_error :
    not_nil (ExecutionError (ctrl s)) = true ->
    dispatched s s
| dispatched_software_signed signedTransaction :
    SigningImpl (Behavior (ctrl s)) = Software ->
    ExecutionError (ctrl s) = None ->
    KeyStore_SignTx (history s) (Account (Sender (ctrl s))) (Tx (ctrl s))
      = Ok signedTransaction ->
    dispatched s
      (update (set_Tx signedTransaction)
         (record (EvKeyStoreSignTx (Account (Sender (ctrl s))) (Tx (ctrl s))
                    (Ok signedTransaction)) s))
| dispatched_software_failed err :
    SigningImpl (Behavior (ctrl s)) = Software ->
    ExecutionError (ctrl s) = None ->
    KeyStore_SignTx (history s) (Account (Sender (ctrl s))) (Tx (ctrl s))
      = Err err ->
    dispatched s
      (update (set_ExecutionError (Some err))
         (record (EvKeyStoreSignTx (Account (Sender (ctrl s))) (Tx (ctrl s))
                    (Err err)) s))
| dispatched_ledger_signed signature :
    SigningImpl (Behavior (ctrl s)) = Ledger ->
    ExecutionError (ctrl s) = None ->
    ledger_SignTx (history s) (fst (proto_Marshal (core.RawData (Tx (ctrl s)))))
      = Ok signature ->
    dispatched s
      (update (append_signature signature)
         (record (EvLedgerSignTx
                    (fst (proto_Marshal (core.RawData (Tx (ctrl s)))))
                    (Ok signature)) s))
| dispatched_ledger_failed err :
    SigningImpl (Behavior (ctrl s)) = Ledger ->
    ExecutionError (ctrl s) = None ->
    ledger_SignTx (history s) (fst (proto_Marshal (core.RawData (Tx (ctrl s)))))
      = Err err ->
    dispatched s
      (update (set_ExecutionError (Some err))
         (record (EvLedgerSignTx
                    (fst (proto_Marshal (core.RawData (Tx (ctrl s)))))
                    (Err err)) s)).

End Dispatch.

(** An option that changes nothing but the behaviour of the controller, as
    the options of the package do. *)
Definition behavior_only (option : Controller -> Controller) : Prop :=
  forall c, option c = set_Behavior (Behavior (option c)) c.

(** The events that the confirmation loop for [txHash] can produce. *)
Definition is_poll_for (txHash : string) (e : event) : Prop :=
  e = EvSleep time_Second \/ exists r, e = EvGetTransactionInfoByID txHash r.

(** A key store (or a device) that refuses to sign, and a network that
    cannot be reached. *)
Definition locked : error := errors_New "could not decrypt key with given password".

Definition refusing_world : World :=
  scripted (Err locked) (Ok acceptance) (fun _ => Err not_found)
           (a_payload, None).

Definition unreachable : error := errors_New "connection refused".

Definition unreachable_world : World :=
  scripted (Ok a_signature) (Err unreachable) (fun _ => Err not_found)
           (a_payload, None).

(** The transaction that the scripted key store returns for
    [a_transaction]. *)
Definition a_signed_transaction : core.Transaction :=
  core.set_Signature [a_signature] a_transaction.

(** * Properties *)

(** ** Integers *)

Lemma int_wrap_exact z : - 2 ^ 63 <= z < 2 ^ 63 -> int_wrap z = z.
Proof.
  intros Hz. unfold int_wrap.
  rewrite Z.mod_small by lia. lia.
Qed.

Lemma int_wrap_decrement start :
  0 <= start < 2 ^ 63 -> int_wrap (start - 1) = start - 1.
Proof. intros H. apply int_wrap_exact. lia. Qed.

(** A [uint32] fits in [int]. *)
Lemma int_of_uint32_exact w : (w < 2 ^ 32)%N -> int_of_uint32 w = Z.of_N w.
Proof.
  intros Hw. unfold int_of_uint32. apply int_wrap_exact.
  assert (Z.of_N w < Z.of_N (2 ^ 32)) by lia.
  change (Z.of_N (2 ^ 32)) with (2 ^ 32) in *. lia.
Qed.

(** ** Strings *)

Lemma append_empty (s : string) : (s ++ "")%string = s.
Proof. induction s as [| a s IH]; simpl; [| rewrite IH]; reflexivity. Qed.

Lemma contains_suffix (before text : string) :
  contains (before ++ text)%string text.
Proof. exists before, "". rewrite append_empty. reflexivity. Qed.

(** The bytes of a text: [string(b)] keeps the bytes of [b], and the bytes
    of a concatenation are the bytes of its parts. *)
Lemma bytes_of_string_of_bytes (b : bytes) :
  list_byte_of_string (string_of_bytes b) = b.
Proof. unfold string_of_bytes. apply list_byte_of_string_of_list_byte. Qed.

Lemma bytes_of_append (s1 s2 : string) :
  list_byte_of_string (s1 ++ s2)%string
  = list_byte_of_string s1 ++ list_byte_of_string s2.
Proof.
  unfold list_byte_of_string.
  induction s1 as [| a s1 IH]; simpl; [| rewrite IH]; reflexivity.
Qed.

(** ** Traces *)

Lemma count_app p t1 t2 : count p (t1 ++ t2) = (count p t1 + count p t2)%nat.
Proof. unfold count. rewrite filter_app, length_app. reflexivity. Qed.

Lemma events_since_app s s' evs :
  history s' = history s ++ evs -> events_since s s' = evs.
Proof.
  intros H. unfold events_since. rewrite H.
  rewrite skipn_app, skipn_all, Nat.sub_diag. reflexivity.
Qed.

Lemma events_since_refl s : events_since s s = [].
Proof. apply events_since_app. symmetry. apply app_nil_r. Qed.

Lemma events_since_update f s s' :
  events_since s (update f s') = events_since s s'.
Proof. reflexivity. Qed.

Lemma events_since_record ev s :
  events_since s (record ev s) = [ev].
Proof. apply events_since_app. reflexivity. Qed.


Lemma follows_refl s : follows s s.
Proof. unfold follows. rewrite events_since_refl, app_nil_r. reflexivity. Qed.

Lemma follows_intro s s' evs : history s' = history s ++ evs -> follows s s'.
Proof.
  intros H. unfold follows. rewrite (events_since_app _ _ _ H). exact H.
Qed.

Lemma events_since_trans s1 s2 s3 :
  follows s1 s2 -> follows s2 s3 ->
  events_since s1 s3 = events_since s1 s2 ++ events_since s2 s3.
Proof.
  unfold follows. intros H12 H23.
  apply events_since_app. rewrite H23, H12 at 1. apply eq_sym, app_assoc.
Qed.

Lemma follows_trans s1 s2 s3 : follows s1 s2 -> follows s2 s3 -> follows s1 s3.
Proof.
  intros H12 H23. apply follows_intro with (events_since s1 s2 ++ events_since s2 s3).
  unfold follows in *. rewrite H23, H12 at 1. apply eq_sym, app_assoc.
Qed.

Lemma events_since_two ev1 ev2 s s' :
  follows (record ev2 (record ev1 s)) s' ->
  follows s s' /\
  events_since s s' = [ev1; ev2] ++ events_since (record ev2 (record ev1 s)) s'.
Proof.
  intros Hfol.
  assert (H12 : follows s (record ev2 (record ev1 s))).
  { apply follows_intro with [ev1; ev2]. simpl.
    rewrite <- app_assoc. reflexivity. }
  split; [eapply follows_trans; eassumption |].
  rewrite (events_since_trans _ _ _ H12 Hfol). f_equal.
  apply events_since_app. simpl. rewrite <- app_assoc. reflexivity.
Qed.

Lemma count_none p q t :
  (forall e, p e = true -> q e = false) ->
  forallb p t = true -> count q t = 0%nat.
Proof.
  intros Hpq. unfold count.
  induction t as [| e t IH]; simpl; [reflexivity |].
  intros H. apply andb_prop in H. destruct H as [He Ht].
  rewrite (Hpq e He). auto.
Qed.

Lemma acknowledgment_skip t1 t2 :
  count is_broadcast t1 = 0%nat ->
  acknowledgment (t1 ++ t2) = acknowledgment t2.
Proof.
  unfold count.
  induction t1 as [| e t1 IH]; simpl; [reflexivity |].
  destruct e as [? ? ?| ? ?| ? ?| ? ?| ?]; simpl; auto; discriminate.
Qed.

Lemma receipt_found_skip t1 t2 :
  count is_query t1 = 0%nat ->
  receipt_found (t1 ++ t2) = receipt_found t2.
Proof.
  unfold count.
  induction t1 as [| e t1 IH]; simpl; [reflexivity |].
  destruct e as [? ? ?| ? ?| ? ?| ? ?| ?]; simpl; auto; discriminate.
Qed.

Lemma acknowledgment_app t1 t2 :
  acknowledgment (t1 ++ t2) =
    match acknowledgment t1 with
    | Some ack => Some ack
    | None => acknowledgment t2
    end.
Proof.
  induction t1 as [| e t1 IH]; simpl; [reflexivity |].
  destruct e as [? ? ?| ? ?| ? [? | ?]| ? ?| ?]; simpl; auto.
Qed.

Lemma acknowledgment_none t :
  count is_broadcast t = 0%nat -> acknowledgment t = None.
Proof.
  intros H. rewrite <- (app_nil_r t). rewrite acknowledgment_skip; auto.
Qed.

Lemma receipt_found_none t :
  count is_query t = 0%nat -> receipt_found t = None.
Proof.
  intros H. rewrite <- (app_nil_r t). rewrite receipt_found_skip; auto.
Qed.

(** ** The stages, one by one *)

Section Stages.

Context {W : World}.

(** Every stage starts with the check of the error slot. *)
Lemma SignTxForSending_noop s :
  not_nil (ExecutionError (ctrl s)) = true -> SignTxForSending s = (tt, s).
Proof.
  intros H. unfold SignTxForSending, bind, this. rewrite H. reflexivity.
Qed.

Lemma HardwareSignTxForSending_noop s :
  not_nil (ExecutionError (ctrl s)) = true ->
  HardwareSignTxForSending s = (tt, s).
Proof.
  intros H. unfold HardwareSignTxForSending, bind, this. rewrite H.
  reflexivity.
Qed.

Lemma SendSignedTx_skip s : skips (ctrl s) = true -> SendSignedTx s = (tt, s).
Proof.
  intros H. unfold SendSignedTx, bind, this. fold (skips (ctrl s)).
  rewrite H. reflexivity.
Qed.

Lemma TxConfirmation_skip s :
  skips (ctrl s) = true -> TxConfirmation s = (tt, s).
Proof.
  intros H. unfold TxConfirmation, bind, this. fold (skips (ctrl s)).
  rewrite H. reflexivity.
Qed.

Lemma skips_error c : not_nil (ExecutionError c) = true -> skips c = true.
Proof. intros H. unfold skips. rewrite H. reflexivity. Qed.

Lemma signed_refl s : signed s s.
Proof.
  split; try reflexivity.
  - apply follows_refl.
  - rewrite events_since_refl. reflexivity.
Qed.

Lemma signed_record_update ev f s :
  is_signing ev = true ->
  resultError (f (ctrl s)) = resultError (ctrl s) ->
  Behavior (f (ctrl s)) = Behavior (ctrl s) ->
  Result (f (ctrl s)) = Result (ctrl s) ->
  Receipt (f (ctrl s)) = Receipt (ctrl s) ->
  signed s (update f (record ev s)).
Proof.
  intros Hev H1 H2 H3 H4. split; simpl; auto.
  - apply follows_intro with [ev]. reflexivity.
  - rewrite events_since_update, events_since_record. simpl.
    rewrite Hev. reflexivity.
Qed.

Lemma SignTxForSending_signed s : signed s (snd (SignTxForSending s)).
Proof.
  unfold SignTxForSending, bind, this, call.
  destruct (not_nil (ExecutionError (ctrl s))); simpl.
  - apply signed_refl.
  - destruct (KeyStore_SignTx _ _ _); simpl;
      apply signed_record_update; reflexivity.
Qed.

Lemma HardwareSignTxForSending_signed s :
  signed s (snd (HardwareSignTxForSending s)).
Proof.
  unfold HardwareSignTxForSending, GetRawData, bind, this, call, ret.
  destruct (not_nil (ExecutionError (ctrl s))); simpl.
  - apply signed_refl.
  - destruct (proto_Marshal _) as [data err]; simpl.
    destruct (ledger_SignTx _ _); simpl;
      apply signed_record_update; reflexivity.
Qed.

Lemma switch_SigningImpl_signed s : signed s (snd (switch_SigningImpl s)).
Proof.
  unfold switch_SigningImpl, bind, this.
  destruct (_ =? Software).
  - apply SignTxForSending_signed.
  - destruct (_ =? Ledger).
    + apply HardwareSignTxForSending_signed.
    + apply signed_refl.
Qed.

Lemma switch_SigningImpl_noop s :
  not_nil (ExecutionError (ctrl s)) = true -> switch_SigningImpl s = (tt, s).
Proof.
  intros H. unfold switch_SigningImpl, bind, this.
  destruct (_ =? Software); [apply SignTxForSending_noop; exact H |].
  destruct (_ =? Ledger); [apply HardwareSignTxForSending_noop; exact H |].
  reflexivity.
Qed.

(** The broadcast stage takes one of the four ways of [sent]. *)
Lemma SendSignedTx_sent s : sent s (snd (SendSignedTx s)).
Proof.
  destruct (skips (ctrl s)) eqn:Hskip.
  - rewrite (SendSignedTx_skip s Hskip). apply sent_skipped. exact Hskip.
  - unfold SendSignedTx, bind, this, call. fold (skips (ctrl s)).
    rewrite Hskip.
    destruct (GrpcClient_Broadcast (history s) (Tx (ctrl s)))
      as [ack | err] eqn:Hack; simpl.
    + destruct (api.Code ack =? 0) eqn:Hcode; simpl.
      * apply sent_accepted; auto. apply Z.eqb_eq. exact Hcode.
      * apply (sent_rejected s ack); auto. apply Z.eqb_neq. exact Hcode.
    + apply sent_failed; auto.
Qed.

(** The loop takes, at each turn, one of the three ways of [polled]. *)
Lemma confirmation_loop_polled txHash start s :
  polled txHash start s (snd (confirmation_loop txHash start s)).
Proof.
  funelim (confirmation_loop txHash start s).
  - match goal with H : _ = Ok _ |- _ => rewrite H end.
    match goal with |- polled _ _ _ (snd (_ ?s1)) =>
      replace (snd _) with (update (store_receipt txi) s1)
    end.
    + apply polled_found. assumption.
    + unfold store_receipt, bind, assign, ret, update.
      destruct (negb _); reflexivity.
  - match goal with H : _ = Err _ |- _ => rewrite H end.
    apply polled_out; assumption.
  - match goal with H : _ = Err _ |- _ => rewrite H in * end.
    eapply polled_again; [eassumption | lia |].
    match goal with IH : forall _ _, polled _ _ _ _ |- _ => apply (IH tt) end.
Qed.

End Stages.

Section Pipeline.

Context {W : World}.

Lemma TxConfirmation_confirmed s : confirmed s (snd (TxConfirmation s)).
Proof.
  destruct (skips (ctrl s)) eqn:Hskip.
  - rewrite (TxConfirmation_skip s Hskip). apply confirmation_skipped.
    exact Hskip.
  - unfold TxConfirmation, bind, this. fold (skips (ctrl s)). rewrite Hskip.
    destruct (0 <? ConfirmationWaitTime (Behavior (ctrl s)))%N eqn:Hwait.
    + apply N.ltb_lt in Hwait.
      unfold TransactionHash, GetRawData, bind, this, ret.
      destruct (proto_Marshal (core.RawData (Tx (ctrl s))))
        as [data [err |]] eqn:Henc.
      * eapply confirmation_without_hash; eauto.
      * eapply confirmation_polled; eauto.
        apply confirmation_loop_polled.
    + apply N.ltb_ge in Hwait.
      apply confirmation_not_awaited; [exact Hskip | lia].
Qed.

(** The events of the loop are lookups and sleeps; the controller it
    leaves is decided by the first lookup that found a receipt. *)
Lemma polled_events txHash start s s' :
  polled txHash start s s' ->
  follows s s' /\
  forallb is_poll (events_since s s') = true /\
  ctrl s' =
    match receipt_found (events_since s s') with
    | Some txi => store_receipt txi (ctrl s)
    | None => set_ExecutionError (Some (could_not_confirm (ctrl s))) (ctrl s)
    end.
Proof.
  induction 1 as [start s txi Hget | start s err Hget Hneg
                 | start s err s' Hget Hpos Hrest IH].
  - rewrite events_since_update, events_since_record.
    split; [eapply follows_intro; reflexivity | split; reflexivity].
  - rewrite events_since_update, events_since_record.
    split; [eapply follows_intro; reflexivity | split; reflexivity].
  - destruct IH as (Hfol & Hpolls & Hctrl).
    destruct (events_since_two _ _ _ _ Hfol) as (Hfol' & Hev).
    split; [exact Hfol' |].
    rewrite Hev. simpl. split; [exact Hpolls | exact Hctrl].
Qed.

(** When no lookup ever succeeds the loop makes one lookup per value of
    the budget from [start] down to -1, and sleeps between two lookups. *)
Lemma polled_exhausted txHash start s s' :
  polled txHash start s s' ->
  (forall h id, exists err, GrpcClient_GetTransactionInfoByID h id = Err err) ->
  -1 <= start < 2 ^ 63 ->
  count is_query (events_since s s') = Z.to_nat (start + 2) /\
  count is_sleep (events_since s s') = Z.to_nat (start + 1) /\
  receipt_found (events_since s s') = None.
Proof.
  intros Hpolled Hnever.
  induction Hpolled as [start s txi Hget | start s err Hget Hneg
                       | start s err s' Hget Hpos Hrest IH]; intros Hrange.
  - destruct (Hnever (history s) txHash) as [err Herr]. congruence.
  - rewrite events_since_update, events_since_record.
    replace start with (-1) by lia. repeat split.
  - rewrite int_wrap_decrement in * by lia.
    destruct IH as (Hq & Hs & Hr); [lia |].
    destruct (polled_events _ _ _ _ Hrest) as (Hfol & _ & _).
    destruct (events_since_two _ _ _ _ Hfol) as (_ & Hev).
    rewrite Hev, !count_app, Hq, Hs.
    split; [| split].
    + change (count is_query [_; _]) with 1%nat. lia.
    + change (count is_sleep [_; _]) with 1%nat. lia.
    + exact Hr.
Qed.

Lemma sent_follows s s' : sent s s' -> follows s s'.
Proof.
  destruct 1; try apply follows_refl; eapply follows_intro; reflexivity.
Qed.

Lemma confirmed_follows s s' : confirmed s s' -> follows s s'.
Proof.
  destruct 1 as [ | | | data s' ? ? ? Hpolled];
    try apply follows_refl; try (eapply follows_intro; symmetry; apply app_nil_r).
  apply (polled_events _ _ _ _ Hpolled).
Qed.

(** [ExecuteTransaction] is the three stages in a row; it returns the
    error slot of the last state. *)
Lemma ExecuteTransaction_stages s :
  exists s1 s2 s3,
    signed s s1 /\ sent s1 s2 /\ confirmed s2 s3 /\
    switch_SigningImpl s = (tt, s1) /\
    SendSignedTx s1 = (tt, s2) /\
    TxConfirmation s2 = (tt, s3) /\
    ExecuteTransaction s = (ExecutionError (ctrl s3), s3) /\
    events_since s s3 =
      events_since s s1 ++ events_since s1 s2 ++ events_since s2 s3.
Proof.
  pose proof (switch_SigningImpl_signed s) as H1.
  destruct (switch_SigningImpl s) as [[] s1] eqn:E1.
  pose proof (SendSignedTx_sent s1) as H2.
  destruct (SendSignedTx s1) as [[] s2] eqn:E2.
  pose proof (TxConfirmation_confirmed s2) as H3.
  destruct (TxConfirmation s2) as [[] s3] eqn:E3.
  simpl in H1, H2, H3.
  exists s1, s2, s3. repeat (split; [assumption || reflexivity |]).
  split.
  - unfold ExecuteTransaction, bind. rewrite E1, E2, E3. reflexivity.
  - pose proof (signed_follows _ _ H1) as F1.
    pose proof (sent_follows _ _ H2) as F2.
    pose proof (confirmed_follows _ _ H3) as F3.
    rewrite (events_since_trans s s1 s3 F1 (follows_trans _ _ _ F2 F3)).
    rewrite (events_since_trans s1 s2 s3 F2 F3). reflexivity.
Qed.

End Pipeline.

(** ** Kinds of events *)

Ltac by_kind := intros [? ? ? | ? ? | ? ? | ? ? | ?]; cbv; congruence.

Lemma signing_no_broadcast t :
  forallb is_signing t = true -> count is_broadcast t = 0%nat.
Proof. apply count_none. by_kind. Qed.

Lemma signing_no_query t :
  forallb is_signing t = true -> count is_query t = 0%nat.
Proof. apply count_none. by_kind. Qed.

Lemma signing_no_sleep t :
  forallb is_signing t = true -> count is_sleep t = 0%nat.
Proof. apply count_none. by_kind. Qed.

Lemma broadcast_no_query t :
  forallb is_broadcast t = true -> count is_query t = 0%nat.
Proof. apply count_none. by_kind. Qed.

Lemma broadcast_no_sleep t :
  forallb is_broadcast t = true -> count is_sleep t = 0%nat.
Proof. apply count_none. by_kind. Qed.

Lemma broadcast_no_signing t :
  forallb is_broadcast t = true -> count is_signing t = 0%nat.
Proof. apply count_none. by_kind. Qed.

Lemma poll_no_broadcast t :
  forallb is_poll t = true -> count is_broadcast t = 0%nat.
Proof. apply count_none. by_kind. Qed.

Lemma poll_no_signing t :
  forallb is_poll t = true -> count is_signing t = 0%nat.
Proof. apply count_none. by_kind. Qed.

Section Events.

Context {W : World}.

Lemma sent_broadcasts s s' :
  sent s s' -> forallb is_broadcast (events_since s s') = true.
Proof.
  destruct 1; rewrite ?events_since_refl,
    ?events_since_update, ?events_since_record; reflexivity.
Qed.

Lemma confirmed_polls s s' :
  confirmed s s' -> forallb is_poll (events_since s s') = true.
Proof.
  destruct 1 as [ | | | data s' ? ? ? Hpolled];
    rewrite ?events_since_update, ?events_since_refl; try reflexivity.
  apply (polled_events _ _ _ _ Hpolled).
Qed.

(** A stage that found the error slot set, or the dry-run flag, does
    nothing. *)
Lemma sent_skips s s' : sent s s' -> skips (ctrl s) = true -> s' = s.
Proof. destruct 1; congruence. Qed.

Lemma confirmed_skips s s' : confirmed s s' -> skips (ctrl s) = true -> s' = s.
Proof. destruct 1; congruence. Qed.

Lemma skips_false c :
  skips c = false -> ExecutionError c = None /\ DryRun (Behavior c) = false.
Proof.
  unfold skips. destruct (ExecutionError c), (DryRun (Behavior c));
    simpl; intros; split; congruence.
Qed.

Lemma store_receipt_frame txi c :
  ExecutionError (store_receipt txi c) = ExecutionError c /\
  Result (store_receipt txi c) = Result c /\
  Tx (store_receipt txi c) = Tx c /\
  Behavior (store_receipt txi c) = Behavior c /\
  Receipt (store_receipt txi c) = Some txi.
Proof. unfold store_receipt. destruct (negb _); repeat split. Qed.

(** What the confirmation stage leaves alone.  The receipt is written
    only on the ways that leave the error slot nil. *)
Lemma confirmed_frame s s' :
  confirmed s s' ->
  Result (ctrl s') = Result (ctrl s) /\
  Tx (ctrl s') = Tx (ctrl s) /\
  Behavior (ctrl s') = Behavior (ctrl s) /\
  (ExecutionError (ctrl s') <> None -> Receipt (ctrl s') = Receipt (ctrl s)).
Proof.
  destruct 1 as [Hs | Hs Hw | data err Hs Hw Henc | data s' Hs Hw Henc Hpolled];
    try (repeat split; fail).
  - apply skips_false in Hs. destruct Hs as [Hnil _].
    repeat split. simpl. congruence.
  - destruct (polled_events _ _ _ _ Hpolled) as (_ & _ & Hctrl).
    apply skips_false in Hs. destruct Hs as [Hnil _].
    rewrite Hctrl.
    destruct (receipt_found (events_since s s')) as [txi |].
    + destruct (store_receipt_frame txi (ctrl s)) as (He & Hr & Ht & Hb & _).
      repeat split; try assumption. congruence.
    + repeat split.
Qed.

(** A receipt in the events of the confirmation stage means that the
    stage polled and stored it. *)
Lemma confirmed_found s s' txi :
  confirmed s s' ->
  receipt_found (events_since s s') = Some txi ->
  skips (ctrl s) = false /\ ctrl s' = store_receipt txi (ctrl s).
Proof.
  destruct 1 as [Hs | Hs Hw | data err Hs Hw Henc | data s' Hs Hw Henc Hpolled];
    rewrite ?events_since_update, ?events_since_refl; try discriminate.
  intros Hfound.
  destruct (polled_events _ _ _ _ Hpolled) as (_ & _ & Hctrl).
  rewrite Hfound in Hctrl. split; assumption.
Qed.

(** The broadcast stage writes the acknowledgment slot exactly when the
    client answered with an acknowledgment; the fatal error it records in
    that case is the rejection. *)
Lemma sent_frame s s' :
  sent s s' ->
  Receipt (ctrl s') = Receipt (ctrl s) /\
  Behavior (ctrl s') = Behavior (ctrl s) /\
  Tx (ctrl s') = Tx (ctrl s) /\
  Result (ctrl s') =
    match acknowledgment (events_since s s') with
    | Some ack => Some ack
    | None => Result (ctrl s)
    end /\
  (forall ack, acknowledgment (events_since s s') = Some ack ->
     ExecutionError (ctrl s') =
       if api.Code ack =? 0 then None else Some (bad_transaction ack)).
Proof.
  destruct 1 as [Hs | err Hs Hb | ack Hs Hb Hc | ack Hs Hb Hc];
    rewrite ?events_since_update, ?events_since_record, ?events_since_refl;
    simpl; repeat split; try discriminate.
  - intros ack' [= <-]. apply Z.eqb_neq in Hc. rewrite Hc. reflexivity.
  - intros ack' [= <-]. rewrite Hc. simpl.
    apply skips_false in Hs. apply Hs.
Qed.

End Events.

(** * The claims *)

Section Claims.

Context {W : World}.

(** C2.  A stage that finds the error slot set does nothing: it leaves
    the controller as it is and calls nobody.  [ExecuteTransaction]
    returns the error slot as the first stage that set it left it (the
    slot of the start state included), and nil when no slot along the
    pipeline is set; the state it ends in is the state after the three
    stages. *)
Theorem first_fatal_error_is_returned s :
  let s1 := snd (switch_SigningImpl s) in
  let s2 := snd (SendSignedTx s1) in
  let s3 := snd (TxConfirmation s2) in
  (forall s0 e, ExecutionError (ctrl s0) = Some e ->
     SignTxForSending s0 = (tt, s0) /\
     HardwareSignTxForSending s0 = (tt, s0) /\
     switch_SigningImpl s0 = (tt, s0) /\
     SendSignedTx s0 = (tt, s0) /\
     TxConfirmation s0 = (tt, s0)) /\
  ExecuteTransaction s =
    (first_error [ExecutionError (ctrl s); ExecutionError (ctrl s1);
                  ExecutionError (ctrl s2); ExecutionError (ctrl s3)], s3).
Proof.
  intros s1 s2 s3.
  assert (Hnoop : forall s0 e, ExecutionError (ctrl s0) = Some e ->
     SignTxForSending s0 = (tt, s0) /\
     HardwareSignTxForSending s0 = (tt, s0) /\
     switch_SigningImpl s0 = (tt, s0) /\
     SendSignedTx s0 = (tt, s0) /\
     TxConfirmation s0 = (tt, s0)).
  { intros s0 e He.
    assert (Hset : not_nil (ExecutionError (ctrl s0)) = true)
      by (rewrite He; reflexivity).
    repeat split.
    - apply SignTxForSending_noop, Hset.
    - apply HardwareSignTxForSending_noop, Hset.
    - apply switch_SigningImpl_noop, Hset.
    - apply SendSignedTx_skip, skips_error, Hset.
    - apply TxConfirmation_skip, skips_error, Hset. }
  split; [exact Hnoop |].
  destruct (ExecuteTransaction_stages s)
    as (t1 & t2 & t3 & _ & _ & _ & E1 & E2 & E3 & Erun & _).
  assert (Es1 : s1 = t1) by (unfold s1; rewrite E1; reflexivity).
  assert (Es2 : s2 = t2) by (unfold s2; rewrite Es1, E2; reflexivity).
  assert (Es3 : s3 = t3) by (unfold s3; rewrite Es2, E3; reflexivity).
  rewrite Erun, <- Es3. f_equal.
  simpl.
  destruct (ExecutionError (ctrl s)) as [e |] eqn:He0.
  { destruct (Hnoop s e He0) as (_ & _ & H1 & H2 & H3).
    unfold s3, s2, s1. rewrite H1; simpl. rewrite H2; simpl.
    rewrite H3; simpl. exact He0. }
  destruct (ExecutionError (ctrl s1)) as [e |] eqn:He1.
  { destruct (Hnoop s1 e He1) as (_ & _ & _ & H2 & H3).
    unfold s3, s2. rewrite H2; simpl. rewrite H3; simpl. exact He1. }
  destruct (ExecutionError (ctrl s2)) as [e |] eqn:He2.
  { destruct (Hnoop s2 e He2) as (_ & _ & _ & _ & H3).
    unfold s3. rewrite H3; simpl. exact He2. }
  destruct (ExecutionError (ctrl s3)); reflexivity.
Qed.

(** C7.  With a wait time of zero, no fatal error and no dry run, the
    confirmation step stores the synthesized empty receipt (zero status,
    zero resource usage) and makes no call at all: the history is
    unchanged, so no receipt was looked up. *)
Theorem zero_wait_stores_empty_receipt s :
  ExecutionError (ctrl s) = None ->
  DryRun (Behavior (ctrl s)) = false ->
  ConfirmationWaitTime (Behavior (ctrl s)) = 0%N ->
  TxConfirmation s = (tt, update (set_Receipt (Some empty_receipt)) s) /\
  events_since s (snd (TxConfirmation s)) = [] /\
  count is_query (events_since s (snd (TxConfirmation s))) = 0%nat /\
  holds_empty_receipt (ctrl (snd (TxConfirmation s))).
Proof.
  intros Herr Hdry Hwait.
  assert (E : TxConfirmation s
              = (tt, update (set_Receipt (Some empty_receipt)) s)).
  { unfold TxConfirmation, bind, this. rewrite Herr, Hdry, Hwait.
    reflexivity. }
  rewrite E. simpl. rewrite events_since_update, events_since_refl.
  repeat split.
  exists empty_receipt. repeat split.
Qed.

(** C8.  When the raw payload encodes, two calls of [TransactionHash] in
    a row give the same hexadecimal string and leave the state as it
    was; the hash of the transaction with one more signature appended is
    the same string, and so is the hash after the hardware signing
    step. *)
Theorem TransactionHash_is_stable s data :
  proto_Marshal (core.RawData (Tx (ctrl s))) = (data, None) ->
  let hex := common_ToHex (sha256_Sum data) in
  (h1 <- TransactionHash ;; h2 <- TransactionHash ;; ret (h1, h2)) s
    = (((hex, None), (hex, None)), s) /\
  (forall signature,
     fst (TransactionHash (update (append_signature signature) s))
     = (hex, None)) /\
  fst (TransactionHash (snd (HardwareSignTxForSending s))) = (hex, None).
Proof.
  intros Henc hex.
  assert (Hhash : forall s', core.RawData (Tx (ctrl s'))
                             = core.RawData (Tx (ctrl s)) ->
                  TransactionHash s' = ((hex, None), s')).
  { intros s' Hraw. unfold TransactionHash, GetRawData, bind, this, ret.
    rewrite Hraw, Henc. reflexivity. }
  split; [| split].
  - unfold bind at 1. rewrite (Hhash s eq_refl).
    unfold bind. rewrite (Hhash s eq_refl). reflexivity.
  - intros signature. rewrite Hhash; reflexivity.
  - rewrite Hhash; [reflexivity |].
    unfold HardwareSignTxForSending, GetRawData, bind, this, ret, call.
    destruct (not_nil (ExecutionError (ctrl s))); [reflexivity |].
    rewrite Henc. destruct (ledger_SignTx (history s) data); reflexivity.
Qed.

(** C9.  When the raw payload does not encode, [TransactionHash] returns
    the encoding error, whereas the hardware signing step drops it: the
    signer is called with the bytes the encoder returned, a signature it
    returns is appended to the transaction (the signature list is the old
    one followed by that signature, the raw payload is untouched) and the
    error slot stays nil; only an error of the signer itself is recorded,
    and the transaction is then as it was. *)
Theorem hardware_signing_drops_encoding_error s data err :
  ExecutionError (ctrl s) = None ->
  proto_Marshal (core.RawData (Tx (ctrl s))) = (data, Some err) ->
  let answer := ledger_SignTx (history s) data in
  let s' := snd (HardwareSignTxForSending s) in
  TransactionHash s = (("", Some err), s) /\
  events_since s s' = [EvLedgerSignTx data answer] /\
  ctrl s' = match answer with
            | Ok signature => append_signature signature (ctrl s)
            | Err err' => set_ExecutionError (Some err') (ctrl s)
            end /\
  ExecutionError (ctrl s') = match answer with
                             | Ok _ => None
                             | Err err' => Some err'
                             end /\
  core.Signature (Tx (ctrl s')) =
    match answer with
    | Ok signature => core.Signature (Tx (ctrl s)) ++ [signature]
    | Err _ => core.Signature (Tx (ctrl s))
    end /\
  core.RawData (Tx (ctrl s')) = core.RawData (Tx (ctrl s)).
Proof.
  intros Herr Henc answer s'.
  split.
  { unfold TransactionHash, GetRawData, bind, this, ret. rewrite Henc.
    reflexivity. }
  unfold s', HardwareSignTxForSending, GetRawData, bind, this, ret, call.
  cbn beta. rewrite Herr. cbn beta iota delta [not_nil].
  rewrite Henc. cbn beta iota. fold answer.
  destruct answer as [signature | err']; simpl;
    rewrite events_since_update, events_since_record;
    repeat split; assumption.
Qed.

(** C10.  When the signing variant is neither [Software] nor [Ledger],
    the [switch] does nothing: [ExecuteTransaction] is the broadcast step
    followed by the confirmation step, no signer is called, and (unless
    the error slot is set already or the run is a dry run) the first call
    of the execution is the broadcast of the transaction as it was
    given. *)
Theorem unknown_signer_signs_nothing s :
  SigningImpl (Behavior (ctrl s)) <> Software ->
  SigningImpl (Behavior (ctrl s)) <> Ledger ->
  let s' := snd (ExecuteTransaction s) in
  switch_SigningImpl s = (tt, s) /\
  ExecuteTransaction s =
    (SendSignedTx ;; TxConfirmation ;; C <- this ;; ret (ExecutionError C)) s /\
  count is_signing (events_since s s') = 0%nat /\
  (skips (ctrl s) = false ->
   hd_error (events_since s s') =
     Some (EvBroadcast (Tx (ctrl s))
             (GrpcClient_Broadcast (history s) (Tx (ctrl s))))).
Proof.
  intros Hsoft Hledger s'.
  assert (Hswitch : switch_SigningImpl s = (tt, s)).
  { unfold switch_SigningImpl, bind, this.
    apply Z.eqb_neq in Hsoft, Hledger. rewrite Hsoft, Hledger.
    reflexivity. }
  assert (Hrun : ExecuteTransaction s =
    (SendSignedTx ;; TxConfirmation ;; C <- this ;; ret (ExecutionError C)) s).
  { unfold ExecuteTransaction, bind at 1. rewrite Hswitch. reflexivity. }
  split; [exact Hswitch | split; [exact Hrun |]].
  destruct (ExecuteTransaction_stages s)
    as (s1 & s2 & s3 & _ & Hsent & Hconf & E1 & _ & _ & Erun & Hev).
  assert (s1 = s) by congruence. subst s1.
  unfold s'. rewrite Erun. simpl. rewrite Hev, events_since_refl. simpl.
  split.
  - rewrite count_app.
    rewrite (broadcast_no_signing _ (sent_broadcasts _ _ Hsent)).
    rewrite (poll_no_signing _ (confirmed_polls _ _ Hconf)). reflexivity.
  - intros Hskip.
    destruct Hsent as [Hs | e Hs Hb | ack Hs Hb Hc | ack Hs Hb Hc];
      [congruence | | |];
      rewrite events_since_update, events_since_record, Hb; reflexivity.
Qed.

(** C1 (as the code has it).  When [ExecuteTransaction] ends with the
    error slot set, the receipt slot is as it was before the call (nil
    for a new controller).  The acknowledgment slot is as it was before
    only when the client returned no acknowledgment; an acknowledgment
    that was returned is stored, whether the error comes from its own
    non-zero code or from the confirmation step after it. *)
Theorem fatal_error_leaves_receipt_unset s :
  let s' := snd (ExecuteTransaction s) in
  ExecutionError (ctrl s') <> None ->
  Receipt (ctrl s') = Receipt (ctrl s) /\
  Result (ctrl s') =
    match acknowledgment (events_since s s') with
    | Some ack => Some ack
    | None => Result (ctrl s)
    end.
Proof.
  destruct (ExecuteTransaction_stages s)
    as (s1 & s2 & s3 & Hsign & Hsent & Hconf & _ & _ & _ & Erun & Hev).
  rewrite Erun. simpl. intros Herr.
  destruct (confirmed_frame _ _ Hconf) as (Hres3 & _ & _ & Hrec3).
  destruct (sent_frame _ _ Hsent) as (Hrec2 & _ & _ & Hres2 & _).
  split.
  - rewrite (Hrec3 Herr), Hrec2. apply (signed_Receipt _ _ Hsign).
  - rewrite Hev.
    rewrite acknowledgment_skip
      by apply signing_no_broadcast, (signed_events _ _ Hsign).
    rewrite Hres3, Hres2, (signed_Result _ _ Hsign).
    rewrite acknowledgment_app.
    rewrite (acknowledgment_none (events_since s2 s3))
      by apply poll_no_broadcast, (confirmed_polls _ _ Hconf).
    destruct (acknowledgment (events_since s1 s2)); reflexivity.
Qed.

(** C3.  In an execution whose broadcast was acknowledged with code 0 and
    whose polling found a receipt with a non-zero status,
    [ExecuteTransaction] returns nil, [GetResultError] returns the error
    whose text is the receipt's result message (the bytes of the text are
    the bytes of the message), and the receipt is stored in the
    controller. *)
Theorem failed_receipt_is_not_fatal s ack txi :
  let s' := snd (ExecuteTransaction s) in
  acknowledgment (events_since s s') = Some ack ->
  api.Code ack = 0 ->
  receipt_found (events_since s s') = Some txi ->
  core.Result txi <> 0 ->
  fst (ExecuteTransaction s) = None /\
  fst (GetResultError s') =
    Some (errors_New (string_of_bytes (core.ResMessage txi))) /\
  Receipt (ctrl s') = Some txi /\
  (exists e, fst (GetResultError s') = Some e /\
     list_byte_of_string (Error e) = core.ResMessage txi).
Proof.
  destruct (ExecuteTransaction_stages s)
    as (s1 & s2 & s3 & Hsign & Hsent & Hconf & _ & _ & _ & Erun & Hev).
  rewrite Erun. simpl. intros _ _ Hfound Hstatus.
  rewrite Hev in Hfound.
  rewrite receipt_found_skip in Hfound
    by apply signing_no_query, (signed_events _ _ Hsign).
  rewrite receipt_found_skip in Hfound
    by apply broadcast_no_query, (sent_broadcasts _ _ Hsent).
  destruct (confirmed_found _ _ _ Hconf Hfound) as (Hskip & Hctrl).
  apply skips_false in Hskip. destruct Hskip as (Hnil & _).
  unfold GetResultError, bind, this, ret. simpl.
  rewrite Hctrl. unfold store_receipt.
  apply Z.eqb_neq in Hstatus. rewrite Hstatus. simpl.
  split; [exact Hnil |]. split; [reflexivity |]. split; [reflexivity |].
  eexists. split; [reflexivity |]. apply bytes_of_string_of_bytes.
Qed.

(** The confirmation stage against a client that never has the receipt:
    with a budget of [w] seconds it looks up [w + 2] times, sleeps
    [w + 1] times and records the timeout. *)
Lemma confirmed_exhausted s s' :
  confirmed s s' ->
  skips (ctrl s) = false ->
  (0 < ConfirmationWaitTime (Behavior (ctrl s)) < 2 ^ 32)%N ->
  snd (proto_Marshal (core.RawData (Tx (ctrl s)))) = None ->
  (forall h id, exists err, GrpcClient_GetTransactionInfoByID h id = Err err) ->
  ctrl s' = set_ExecutionError (Some (could_not_confirm (ctrl s))) (ctrl s) /\
  count is_query (events_since s s')
    = (N.to_nat (ConfirmationWaitTime (Behavior (ctrl s))) + 2)%nat /\
  count is_sleep (events_since s s')
    = (N.to_nat (ConfirmationWaitTime (Behavior (ctrl s))) + 1)%nat.
Proof.
  intros Hconf Hskip Hwait Henc Hnever.
  destruct Hconf as [Hs | Hs Hw | data err Hs Hw Henc' | data s' Hs Hw Henc' Hpolled].
  - congruence.
  - lia.
  - rewrite Henc' in Henc. discriminate.
  - rewrite int_of_uint32_exact in Hpolled by lia.
    destruct (polled_events _ _ _ _ Hpolled) as (_ & _ & Hctrl).
    destruct (polled_exhausted _ _ _ _ Hpolled Hnever) as (Hq & Hsl & Hnone).
    { assert (Z.of_N (ConfirmationWaitTime (Behavior (ctrl s)))
              < Z.of_N (2 ^ 32)) by lia.
      change (Z.of_N (2 ^ 32)) with (2 ^ 32) in *. lia. }
    rewrite Hnone in Hctrl. rewrite Hq, Hsl. split; [exact Hctrl |]. lia.
Qed.

(** C4.  With a wait time of 2, a broadcast that is acknowledged with
    code 0, a payload that encodes and a client whose lookups all fail
    (whatever the error), the loop ends and [ExecuteTransaction] returns
    the timeout error.  Every failed lookup is followed by a sleep and
    another lookup as long as the budget is not negative: three sleeps,
    at budgets 2, 1 and 0, and four lookups, the last one at the boundary
    (budget -1), after which the loop gives up; the receipt slot is left
    as it was. *)
Theorem polling_gives_up_below_zero s ack :
  let s' := snd (ExecuteTransaction s) in
  ConfirmationWaitTime (Behavior (ctrl s)) = 2%N ->
  (forall h id, exists err, GrpcClient_GetTransactionInfoByID h id = Err err) ->
  acknowledgment (events_since s s') = Some ack ->
  api.Code ack = 0 ->
  snd (proto_Marshal (core.RawData (Tx (ctrl s')))) = None ->
  fst (ExecuteTransaction s)
    = Some (errors_New "could not confirm transaction after 2 seconds") /\
  count is_query (events_since s s') = 4%nat /\
  count is_sleep (events_since s s') = 3%nat /\
  Receipt (ctrl s') = Receipt (ctrl s).
Proof.
  destruct (ExecuteTransaction_stages s)
    as (s1 & s2 & s3 & Hsign & Hsent & Hconf & _ & _ & _ & Erun & Hev).
  rewrite Erun. simpl. intros Hwait Hnever Hack Hcode Henc.
  destruct (confirmed_frame _ _ Hconf) as (_ & Htx3 & _ & Hrec3).
  destruct (sent_frame _ _ Hsent) as (Hrec2 & Hbeh2 & _ & _ & Herr2).
  rewrite Hev in Hack.
  rewrite acknowledgment_skip in Hack
    by apply signing_no_broadcast, (signed_events _ _ Hsign).
  assert (Hack2 : acknowledgment (events_since s1 s2) = Some ack).
  { destruct Hsent;
      rewrite ?events_since_update, ?events_since_record,
        ?events_since_refl in *; simpl in *; try assumption;
      rewrite acknowledgment_none in Hack
        by apply poll_no_broadcast, (confirmed_polls _ _ Hconf);
      discriminate. }
  specialize (Herr2 ack Hack2). rewrite Hcode in Herr2. simpl in Herr2.
  assert (Hdry2 : DryRun (Behavior (ctrl s2)) = false).
  { destruct Hsent as [Hs | err Hs Hb | ack' Hs Hb Hc | ack' Hs Hb Hc];
      try (apply skips_false in Hs; apply Hs).
    rewrite events_since_refl in Hack2. discriminate. }
  assert (Hskip2 : skips (ctrl s2) = false).
  { unfold skips. rewrite Herr2, Hdry2. reflexivity. }
  assert (Hwait2 : ConfirmationWaitTime (Behavior (ctrl s2)) = 2%N).
  { rewrite Hbeh2, (signed_Behavior _ _ Hsign). exact Hwait. }
  destruct (confirmed_exhausted s2 s3 Hconf Hskip2) as (Hctrl & Hq & Hsl);
    [rewrite Hwait2; lia | rewrite <- Htx3; exact Henc | exact Hnever |].
  rewrite Hwait2 in Hq, Hsl.
  assert (Herr3 : ExecutionError (ctrl s3)
                  = Some (errors_New "could not confirm transaction after 2 seconds")).
  { rewrite Hctrl. unfold could_not_confirm. rewrite Hwait2. reflexivity. }
  split; [exact Herr3 |].
  rewrite Hev, !count_app, Hq, Hsl.
  rewrite (signing_no_query _ (signed_events _ _ Hsign)).
  rewrite (signing_no_sleep _ (signed_events _ _ Hsign)).
  rewrite (broadcast_no_query _ (sent_broadcasts _ _ Hsent)).
  rewrite (broadcast_no_sleep _ (sent_broadcasts _ _ Hsent)).
  repeat split.
  rewrite Hrec3, Hrec2 by (rewrite Herr3; discriminate).
  apply (signed_Receipt _ _ Hsign).
Qed.

(** C5 (as the code has it).  In a dry run [ExecuteTransaction] neither
    broadcasts nor looks up a receipt nor sleeps, and it leaves the
    receipt slot and the acknowledgment slot as they were: the
    confirmation step returns before it could synthesize a receipt. *)
Theorem dry_run_stays_offline s :
  let s' := snd (ExecuteTransaction s) in
  DryRun (Behavior (ctrl s)) = true ->
  count is_broadcast (events_since s s') = 0%nat /\
  count is_query (events_since s s') = 0%nat /\
  count is_sleep (events_since s s') = 0%nat /\
  Receipt (ctrl s') = Receipt (ctrl s) /\
  Result (ctrl s') = Result (ctrl s).
Proof.
  destruct (ExecuteTransaction_stages s)
    as (s1 & s2 & s3 & Hsign & Hsent & Hconf & _ & _ & _ & Erun & Hev).
  rewrite Erun. simpl. intros Hdry.
  assert (Hskip : skips (ctrl s1) = true).
  { unfold skips. rewrite (signed_Behavior _ _ Hsign), Hdry.
    apply orb_true_r. }
  assert (s2 = s1) by (apply (sent_skips _ _ Hsent Hskip)). subst s2.
  assert (s3 = s1) by (apply (confirmed_skips _ _ Hconf Hskip)). subst s3.
  rewrite (signing_no_broadcast _ (signed_events _ _ Hsign)).
  rewrite (signing_no_query _ (signed_events _ _ Hsign)).
  rewrite (signing_no_sleep _ (signed_events _ _ Hsign)).
  rewrite (signed_Receipt _ _ Hsign), (signed_Result _ _ Hsign).
  repeat split.
Qed.

(** C6.  In an execution whose broadcast was acknowledged with a
    non-zero code, [ExecuteTransaction] returns the error with the text
    "bad transaction: " followed by the message of the acknowledgment,
    so the message occurs in the text (the bytes of the text are those of
    the prefix followed by the bytes of the message), and no receipt is
    looked up. *)
Theorem rejected_broadcast_is_fatal s ack :
  let s' := snd (ExecuteTransaction s) in
  acknowledgment (events_since s s') = Some ack ->
  api.Code ack <> 0 ->
  api.Message ack <> [] ->
  (exists e, fst (ExecuteTransaction s) = Some e /\
     Error e = ("bad transaction: " ++ string_of_bytes (api.Message ack))%string /\
     contains (Error e) (string_of_bytes (api.Message ack)) /\
     list_byte_of_string (Error e)
       = list_byte_of_string "bad transaction: " ++ api.Message ack) /\
  count is_query (events_since s s') = 0%nat.
Proof.
  destruct (ExecuteTransaction_stages s)
    as (s1 & s2 & s3 & Hsign & Hsent & Hconf & _ & _ & _ & Erun & Hev).
  rewrite Erun. simpl. intros Hack Hcode _.
  destruct (sent_frame _ _ Hsent) as (_ & _ & _ & _ & Herr2).
  rewrite Hev in Hack.
  rewrite acknowledgment_skip in Hack
    by apply signing_no_broadcast, (signed_events _ _ Hsign).
  assert (Hack2 : acknowledgment (events_since s1 s2) = Some ack).
  { destruct Hsent;
      rewrite ?events_since_update, ?events_since_record,
        ?events_since_refl in *; simpl in *; try assumption;
      rewrite acknowledgment_none in Hack
        by apply poll_no_broadcast, (confirmed_polls _ _ Hconf);
      discriminate. }
  specialize (Herr2 ack Hack2).
  apply Z.eqb_neq in Hcode. rewrite Hcode in Herr2.
  assert (Hskip : skips (ctrl s2) = true)
    by (apply skips_error; rewrite Herr2; reflexivity).
  assert (s3 = s2) by (apply (confirmed_skips _ _ Hconf Hskip)). subst s3.
  split.
  - exists (bad_transaction ack). split; [exact Herr2 |].
    split; [reflexivity |].
    split; [apply contains_suffix |].
    unfold bad_transaction, Error.
    rewrite bytes_of_append, bytes_of_string_of_bytes. reflexivity.
  - rewrite Hev, events_since_refl, !count_app.
    rewrite (signing_no_query _ (signed_events _ _ Hsign)).
    rewrite (broadcast_no_query _ (sent_broadcasts _ _ Hsent)).
    reflexivity.
Qed.

End Claims.

(** * The claims on concrete executions *)

(** C1 fails as stated: the network rejects the broadcast of a new
    controller's transaction; the error slot is set by the broadcast step
    and the acknowledgment slot, nil before, holds the rejection. *)
Lemma rejection_is_stored :
  let s := fresh [] in
  let s' := snd (ExecuteTransaction (W := rejecting_world) s) in
  Result (ctrl s) = None /\
  ExecutionError (ctrl s') = Some (bad_transaction rejection) /\
  Result (ctrl s') = Some rejection /\
  ~ unset_after_error (ctrl s').
Proof.
  intros s s'. repeat split.
  intros H. destruct H as [Hres _].
  - vm_compute. discriminate.
  - vm_compute in Hres. discriminate.
Qed.

Lemma fatal_error_leaves_receipt_unset_witness :
  let s := fresh [WithConfirmationWaitTime 2] in
  let s' := snd (ExecuteTransaction (W := rejecting_world) s) in
  ExecutionError (ctrl s') <> None /\
  (Receipt (ctrl s') = Receipt (ctrl s) /\
   Result (ctrl s') =
     match acknowledgment (events_since s s') with
     | Some ack => Some ack
     | None => Result (ctrl s)
     end).
Proof.
  intros s s'.
  assert (H : ExecutionError (ctrl s') <> None) by (vm_compute; discriminate).
  split; [exact H |].
  exact (fatal_error_leaves_receipt_unset (W := rejecting_world) s H).
Defined.

Lemma first_fatal_error_is_returned_witness :
  let s := fresh [WithConfirmationWaitTime 2] in
  let s2 := snd (SendSignedTx (W := rejecting_world)
                   (snd (switch_SigningImpl (W := rejecting_world) s))) in
  ExecutionError (ctrl s2) = Some (bad_transaction rejection) /\
  TxConfirmation (W := rejecting_world) s2 = (tt, s2) /\
  fst (ExecuteTransaction (W := rejecting_world) s)
    = Some (bad_transaction rejection).
Proof.
  intros s s2.
  destruct (first_fatal_error_is_returned (W := rejecting_world) s)
    as [Hnoop Hrun].
  assert (H : ExecutionError (ctrl s2) = Some (bad_transaction rejection))
    by reflexivity.
  split; [exact H |]. split.
  - apply (Hnoop s2 _ H).
  - rewrite Hrun. reflexivity.
Defined.

Lemma failed_receipt_is_not_fatal_witness :
  let s := fresh [WithConfirmationWaitTime 2] in
  let s' := snd (ExecuteTransaction (W := reverting_world) s) in
  acknowledgment (events_since s s') = Some acceptance /\
  api.Code acceptance = 0 /\
  receipt_found (events_since s s') = Some reverted /\
  core.Result reverted <> 0 /\
  (fst (ExecuteTransaction (W := reverting_world) s) = None /\
   fst (GetResultError s') =
     Some (errors_New (string_of_bytes (core.ResMessage reverted))) /\
   Receipt (ctrl s') = Some reverted /\
   (exists e, fst (GetResultError s') = Some e /\
      list_byte_of_string (Error e) = core.ResMessage reverted)) /\
  fst (GetResultError s') = Some (errors_New "oog").
Proof.
  intros s s'.
  assert (H1 : acknowledgment (events_since s s') = Some acceptance)
    by (vm_compute; reflexivity).
  assert (H2 : api.Code acceptance = 0) by reflexivity.
  assert (H3 : receipt_found (events_since s s') = Some reverted)
    by (vm_compute; reflexivity).
  assert (H4 : core.Result reverted <> 0) by (simpl; lia).
  repeat (split; [assumption |]).
  pose proof (failed_receipt_is_not_fatal (W := reverting_world) s
                acceptance reverted H1 H2 H3 H4) as Hthm.
  split; [exact Hthm |].
  destruct Hthm as (_ & Htext & _). exact Htext.
Defined.

Lemma polling_gives_up_below_zero_witness :
  let s := fresh [WithConfirmationWaitTime 2] in
  let s' := snd (ExecuteTransaction (W := silent_world) s) in
  ConfirmationWaitTime (Behavior (ctrl s)) = 2%N /\
  (forall h id, exists err,
     GrpcClient_GetTransactionInfoByID (World := silent_world) h id = Err err) /\
  acknowledgment (events_since s s') = Some acceptance /\
  api.Code acceptance = 0 /\
  snd (proto_Marshal (World := silent_world) (core.RawData (Tx (ctrl s')))) = None /\
  (fst (ExecuteTransaction (W := silent_world) s)
     = Some (errors_New "could not confirm transaction after 2 seconds") /\
   count is_query (events_since s s') = 4%nat /\
   count is_sleep (events_since s s') = 3%nat /\
   Receipt (ctrl s') = Receipt (ctrl s)).
Proof.
  intros s s'.
  assert (H1 : ConfirmationWaitTime (Behavior (ctrl s)) = 2%N) by reflexivity.
  assert (H2 : forall h id, exists err,
     GrpcClient_GetTransactionInfoByID (World := silent_world) h id = Err err)
    by (intros h id; exists not_found; reflexivity).
  assert (H3 : acknowledgment (events_since s s') = Some acceptance)
    by (vm_compute; reflexivity).
  assert (H4 : api.Code acceptance = 0) by reflexivity.
  assert (H5 : snd (proto_Marshal (World := silent_world)
                      (core.RawData (Tx (ctrl s')))) = None) by reflexivity.
  repeat (split; [assumption |]).
  exact (polling_gives_up_below_zero (W := silent_world) s acceptance
           H1 H2 H3 H4 H5).
Defined.

(** C5 fails as stated: a dry run of a new controller ends without fatal
    error and with the receipt slot nil, not with an empty receipt. *)
Lemma dry_run_has_no_receipt :
  let s := fresh [WithDryRun true] in
  let run := ExecuteTransaction (W := silent_world) s in
  fst run = None /\
  Receipt (ctrl (snd run)) = None /\
  ~ holds_empty_receipt (ctrl (snd run)).
Proof.
  intros s run. repeat split.
  intros [txi [H _]]. vm_compute in H. discriminate.
Qed.

Lemma dry_run_stays_offline_witness :
  let s := fresh [WithDryRun true] in
  let s' := snd (ExecuteTransaction (W := silent_world) s) in
  DryRun (Behavior (ctrl s)) = true /\
  (count is_broadcast (events_since s s') = 0%nat /\
   count is_query (events_since s s') = 0%nat /\
   count is_sleep (events_since s s') = 0%nat /\
   Receipt (ctrl s') = Receipt (ctrl s) /\
   Result (ctrl s') = Result (ctrl s)).
Proof.
  intros s s'.
  assert (H : DryRun (Behavior (ctrl s)) = true) by reflexivity.
  split; [exact H |].
  exact (dry_run_stays_offline (W := silent_world) s H).
Defined.

Lemma rejected_broadcast_is_fatal_witness :
  let s := fresh [WithConfirmationWaitTime 2] in
  let s' := snd (ExecuteTransaction (W := rejecting_world) s) in
  acknowledgment (events_since s s') = Some rejection /\
  api.Code rejection <> 0 /\
  api.Message rejection <> [] /\
  ((exists e, fst (ExecuteTransaction (W := rejecting_world) s) = Some e /\
      Error e = ("bad transaction: "
                 ++ string_of_bytes (api.Message rejection))%string /\
      contains (Error e) (string_of_bytes (api.Message rejection)) /\
      list_byte_of_string (Error e)
        = list_byte_of_string "bad transaction: " ++ api.Message rejection) /\
   count is_query (events_since s s') = 0%nat) /\
  fst (ExecuteTransaction (W := rejecting_world) s)
    = Some (errors_New "bad transaction: bad").
Proof.
  intros s s'.
  assert (H1 : acknowledgment (events_since s s') = Some rejection)
    by (vm_compute; reflexivity).
  assert (H2 : api.Code rejection <> 0) by (simpl; lia).
  assert (H3 : api.Message rejection <> []) by (simpl; discriminate).
  repeat (split; [assumption |]).
  pose proof (rejected_broadcast_is_fatal (W := rejecting_world) s rejection
                H1 H2 H3) as Hthm.
  split; [exact Hthm |].
  destruct Hthm as ((e & Hrun & Htext & _) & _).
  rewrite Hrun. destruct e as [text]. simpl in Htext. rewrite Htext.
  reflexivity.
Defined.

Lemma zero_wait_stores_empty_receipt_witness :
  let s := fresh [] in
  ExecutionError (ctrl s) = None /\
  DryRun (Behavior (ctrl s)) = false /\
  ConfirmationWaitTime (Behavior (ctrl s)) = 0%N /\
  (TxConfirmation (W := silent_world) s
     = (tt, update (set_Receipt (Some empty_receipt)) s) /\
   events_since s (snd (TxConfirmation (W := silent_world) s)) = [] /\
   count is_query (events_since s (snd (TxConfirmation (W := silent_world) s)))
     = 0%nat /\
   holds_empty_receipt (ctrl (snd (TxConfirmation (W := silent_world) s)))).
Proof.
  intros s.
  assert (H1 : ExecutionError (ctrl s) = None) by reflexivity.
  assert (H2 : DryRun (Behavior (ctrl s)) = false) by reflexivity.
  assert (H3 : ConfirmationWaitTime (Behavior (ctrl s)) = 0%N) by reflexivity.
  repeat (split; [assumption |]).
  exact (zero_wait_stores_empty_receipt (W := silent_world) s H1 H2 H3).
Defined.

Lemma TransactionHash_is_stable_witness :
  let s := fresh [WithSigningImpl Ledger] in
  proto_Marshal (World := silent_world) (core.RawData (Tx (ctrl s)))
    = (a_payload, None) /\
  (let hex := common_ToHex (World := silent_world)
                (sha256_Sum (World := silent_world) a_payload) in
   (h1 <- TransactionHash (W := silent_world) ;;
    h2 <- TransactionHash (W := silent_world) ;; ret (h1, h2)) s
     = (((hex, None), (hex, None)), s) /\
   (forall signature,
      fst (TransactionHash (W := silent_world)
             (update (append_signature signature) s)) = (hex, None)) /\
   fst (TransactionHash (W := silent_world)
          (snd (HardwareSignTxForSending (W := silent_world) s)))
     = (hex, None)).
Proof.
  intros s.
  assert (H : proto_Marshal (World := silent_world) (core.RawData (Tx (ctrl s)))
              = (a_payload, None)) by reflexivity.
  split; [exact H |].
  exact (TransactionHash_is_stable (W := silent_world) s a_payload H).
Defined.

Lemma hardware_signing_drops_encoding_error_witness :
  let s := fresh [WithSigningImpl Ledger] in
  let err := errors_New "proto: required field not set" in
  ExecutionError (ctrl s) = None /\
  proto_Marshal (World := unencodable_world) (core.RawData (Tx (ctrl s)))
    = ([], Some err) /\
  (let answer := ledger_SignTx (World := unencodable_world) (history s) [] in
   let s' := snd (HardwareSignTxForSending (W := unencodable_world) s) in
   TransactionHash (W := unencodable_world) s = (("", Some err), s) /\
   events_since s s' = [EvLedgerSignTx [] answer] /\
   ctrl s' = match answer with
             | Ok signature => append_signature signature (ctrl s)
             | Err err' => set_ExecutionError (Some err') (ctrl s)
             end /\
   ExecutionError (ctrl s') = match answer with
                              | Ok _ => None
                              | Err err' => Some err'
                              end /\
   core.Signature (Tx (ctrl s')) =
     match answer with
     | Ok signature => core.Signature (Tx (ctrl s)) ++ [signature]
     | Err _ => core.Signature (Tx (ctrl s))
     end /\
   core.RawData (Tx (ctrl s')) = core.RawData (Tx (ctrl s))) /\
  core.Signature
    (Tx (ctrl (snd (HardwareSignTxForSending (W := unencodable_world) s))))
    = [a_signature].
Proof.
  intros s err.
  assert (H1 : ExecutionError (ctrl s) = None) by reflexivity.
  assert (H2 : proto_Marshal (World := unencodable_world)
                 (core.RawData (Tx (ctrl s))) = ([], Some err)) by reflexivity.
  repeat (split; [assumption |]).
  pose proof (hardware_signing_drops_encoding_error (W := unencodable_world)
                s [] err H1 H2) as Hthm.
  split; [exact Hthm |].
  destruct Hthm as (_ & _ & _ & _ & Hsigs & _). exact Hsigs.
Defined.

Lemma unknown_signer_signs_nothing_witness :
  let s := fresh [WithSigningImpl 5] in
  let s' := snd (ExecuteTransaction (W := silent_world) s) in
  SigningImpl (Behavior (ctrl s)) <> Software /\
  SigningImpl (Behavior (ctrl s)) <> Ledger /\
  (switch_SigningImpl (W := silent_world) s = (tt, s) /\
   ExecuteTransaction (W := silent_world) s =
     (SendSignedTx (W := silent_world) ;; TxConfirmation (W := silent_world) ;;
      C <- this ;; ret (ExecutionError C)) s /\
   count is_signing (events_since s s') = 0%nat /\
   (skips (ctrl s) = false ->
    hd_error (events_since s s') =
      Some (EvBroadcast (Tx (ctrl s))
              (GrpcClient_Broadcast (World := silent_world)
                 (history s) (Tx (ctrl s)))))).
Proof.
  intros s s'.
  assert (H1 : SigningImpl (Behavior (ctrl s)) <> Software)
    by (vm_compute; discriminate).
  assert (H2 : SigningImpl (Behavior (ctrl s)) <> Ledger)
    by (vm_compute; discriminate).
  repeat (split; [assumption |]).
  exact (unknown_signer_signs_nothing (W := silent_world) s H1 H2).
Defined.

(** * Further properties of the controller *)

Section Further.

Context {W : World}.

Lemma switch_SigningImpl_dispatched s :
  dispatched s (snd (switch_SigningImpl s)).
Proof.
  unfold switch_SigningImpl, bind, this.
  destruct (SigningImpl (Behavior (ctrl s)) =? Software) eqn:Hsoft.
  - apply Z.eqb_eq in Hsoft.
    destruct (ExecutionError (ctrl s)) as [e |] eqn:Herr.
    + rewrite SignTxForSending_noop by (rewrite Herr; reflexivity).
      cbn [snd]. apply dispatched_after_error. rewrite Herr. reflexivity.
    + unfold SignTxForSending, bind, this, call. cbn beta.
      rewrite Herr. cbn beta iota delta [not_nil].
      destruct (KeyStore_SignTx _ _ _) as [tx' | err] eqn:Hks; cbn.
      * apply dispatched_software_signed; assumption.
      * apply dispatched_software_failed; assumption.
  - apply Z.eqb_neq in Hsoft.
    destruct (SigningImpl (Behavior (ctrl s)) =? Ledger) eqn:Hledger.
    + apply Z.eqb_eq in Hledger.
      destruct (ExecutionError (ctrl s)) as [e |] eqn:Herr.
      * rewrite HardwareSignTxForSending_noop by (rewrite Herr; reflexivity).
        cbn [snd]. apply dispatched_after_error. rewrite Herr. reflexivity.
      * unfold HardwareSignTxForSending, GetRawData, bind, this, call, ret.
        cbn beta. rewrite Herr. cbn beta iota delta [not_nil].
        destruct (proto_Marshal (core.RawData (Tx (ctrl s))))
          as [data encErr] eqn:Henc. cbn beta iota.
        replace data with (fst (proto_Marshal (core.RawData (Tx (ctrl s)))))
          by (rewrite Henc; reflexivity).
        destruct (ledger_SignTx _ _) as [signature | err] eqn:Hsig; cbn.
        -- apply dispatched_ledger_signed; assumption.
        -- apply dispatched_ledger_failed; assumption.
    + apply Z.eqb_neq in Hledger. apply dispatched_nowhere; assumption.
Qed.


(** [ExecuteTransaction] as the three stages, with the way each one took. *)
Lemma ExecuteTransaction_ways s :
  exists s1 s2 s3,
    dispatched s s1 /\ signed s s1 /\ sent s1 s2 /\ confirmed s2 s3 /\
    ExecuteTransaction s = (ExecutionError (ctrl s3), s3) /\
    events_since s s3 =
      events_since s s1 ++ events_since s1 s2 ++ events_since s2 s3.
Proof.
  destruct (ExecuteTransaction_stages s)
    as (s1 & s2 & s3 & Hsign & Hsent & Hconf & E1 & _ & _ & Erun & Hev).
  exists s1, s2, s3. repeat (split; [assumption |]).
  pose proof (switch_SigningImpl_dispatched s) as H.
  rewrite E1 in H. split; [exact H |]. repeat (split; [assumption |]).
  assumption.
Qed.

(** The signing stage calls a signer at most once and leaves the
    configuration alone. *)
Lemma dispatched_frame s s1 :
  dispatched s s1 ->
  (List.length (events_since s s1) <= 1)%nat /\
  Behavior (ctrl s1) = Behavior (ctrl s) /\
  Sender (ctrl s1) = Sender (ctrl s).
Proof.
  destruct 1; rewrite ?events_since_update, ?events_since_record,
    ?events_since_refl; simpl; repeat split; lia.
Qed.

Lemma sent_once s s' :
  sent s s' -> (List.length (events_since s s') <= 1)%nat.
Proof.
  destruct 1; rewrite ?events_since_update, ?events_since_record,
    ?events_since_refl; simpl; lia.
Qed.

(** A broadcast stage that leaves the guard of the next stage open was an
    accepted broadcast. *)
Lemma sent_unskipped s s' :
  sent s s' -> skips (ctrl s') = false ->
  exists ack,
    skips (ctrl s) = false /\
    GrpcClient_Broadcast (history s) (Tx (ctrl s)) = Ok ack /\
    api.Code ack = 0 /\
    s' = update (set_Result (Some ack))
           (record (EvBroadcast (Tx (ctrl s)) (Ok ack)) s).
Proof.
  destruct 1 as [Hs | err Hs Hb | ack Hs Hb Hc | ack Hs Hb Hc]; intros Hopen.
  - congruence.
  - discriminate Hopen.
  - discriminate Hopen.
  - exists ack. repeat split; assumption.
Qed.

Lemma count_length p t : (count p t <= List.length t)%nat.
Proof. unfold count. apply filter_length_le. Qed.

Lemma count_all p t : forallb p t = true -> count p t = List.length t.
Proof.
  unfold count. induction t as [| e t IH]; simpl; [reflexivity |].
  intros H. apply andb_prop in H. destruct H as [He Ht].
  rewrite He. simpl. rewrite IH; auto.
Qed.

(** The loop only sleeps one second and looks up [txHash]; it leaves the
    transaction alone. *)
Lemma polled_lookups txHash start s s' :
  polled txHash start s s' ->
  Forall (is_poll_for txHash) (events_since s s') /\
  Tx (ctrl s') = Tx (ctrl s).
Proof.
  induction 1 as [start s txi Hget | start s err Hget Hneg
                 | start s err s' Hget Hpos Hrest IH].
  - rewrite events_since_update, events_since_record. split.
    + constructor; [right; eexists; reflexivity | constructor].
    + unfold store_receipt. simpl. destruct (negb _); reflexivity.
  - rewrite events_since_update, events_since_record. split.
    + constructor; [right; eexists; reflexivity | constructor].
    + reflexivity.
  - destruct IH as (Hall & Htx).
    destruct (polled_events _ _ _ _ Hrest) as (Hfol & _ & _).
    destruct (events_since_two _ _ _ _ Hfol) as (_ & Hev).
    rewrite Hev. split; [| exact Htx].
    constructor; [right; eexists; reflexivity |].
    constructor; [left; reflexivity | exact Hall].
Qed.

(** Whatever the client answers, the loop entered with budget [start]
    makes at least one and at most [start + 2] lookups, and one sleep less
    than lookups. *)
Lemma polled_bounded txHash start s s' :
  polled txHash start s s' ->
  -1 <= start < 2 ^ 63 ->
  (1 <= count is_query (events_since s s') <= Z.to_nat (start + 2))%nat /\
  (count is_sleep (events_since s s') + 1
   = count is_query (events_since s s'))%nat.
Proof.
  induction 1 as [start s txi Hget | start s err Hget Hneg
                 | start s err s' Hget Hpos Hrest IH]; intros Hrange.
  - rewrite events_since_update, events_since_record.
    change (count is_query [_]) with 1%nat.
    change (count is_sleep [_]) with 0%nat. lia.
  - rewrite events_since_update, events_since_record.
    change (count is_query [_]) with 1%nat.
    change (count is_sleep [_]) with 0%nat. lia.
  - rewrite int_wrap_decrement in * by lia.
    destruct IH as (Hq & Hs); [lia |].
    destruct (polled_events _ _ _ _ Hrest) as (Hfol & _ & _).
    destruct (events_since_two _ _ _ _ Hfol) as (_ & Hev).
    rewrite Hev, !count_app.
    change (count is_query [_; _]) with 1%nat.
    change (count is_sleep [_; _]) with 1%nat. lia.
Qed.

Lemma uint32_in_int w : (w < 2 ^ 32)%N -> 0 <= Z.of_N w < 2 ^ 63.
Proof.
  intros Hw. assert (Z.of_N w < Z.of_N (2 ^ 32)) by lia.
  change (Z.of_N (2 ^ 32)) with (2 ^ 32) in *. lia.
Qed.

(** X1.  The calls of one [ExecuteTransaction] come in the order of the
    pipeline: at most one call of a signer, then at most one broadcast,
    then the lookups and sleeps of the confirmation loop. *)
Theorem calls_follow_the_pipeline s :
  let s' := snd (ExecuteTransaction s) in
  exists signings broadcasts polls,
    events_since s s' = signings ++ broadcasts ++ polls /\
    forallb is_signing signings = true /\
    (List.length signings <= 1)%nat /\
    forallb is_broadcast broadcasts = true /\
    (List.length broadcasts <= 1)%nat /\
    forallb is_poll polls = true.
Proof.
  destruct (ExecuteTransaction_ways s)
    as (s1 & s2 & s3 & Hdis & Hsign & Hsent & Hconf & Erun & Hev).
  rewrite Erun. simpl.
  exists (events_since s s1), (events_since s1 s2), (events_since s2 s3).
  split; [exact Hev |].
  split; [apply (signed_events _ _ Hsign) |].
  split; [apply (dispatched_frame _ _ Hdis) |].
  split; [apply (sent_broadcasts _ _ Hsent) |].
  split; [apply (sent_once _ _ Hsent) |].
  apply (confirmed_polls _ _ Hconf).
Qed.

(** X2.  A receipt is looked up only after the broadcast of this very
    execution was acknowledged with code 0; the acknowledgment is then in
    the [Result] field. *)
Theorem lookups_follow_an_accepted_broadcast s :
  let s' := snd (ExecuteTransaction s) in
  (0 < count is_query (events_since s s'))%nat ->
  exists ack,
    acknowledgment (events_since s s') = Some ack /\
    api.Code ack = 0 /\
    Result (ctrl s') = Some ack.
Proof.
  destruct (ExecuteTransaction_ways s)
    as (s1 & s2 & s3 & Hdis & Hsign & Hsent & Hconf & Erun & Hev).
  rewrite Erun. simpl. rewrite Hev, !count_app.
  rewrite (signing_no_query _ (signed_events _ _ Hsign)).
  rewrite (broadcast_no_query _ (sent_broadcasts _ _ Hsent)).
  intros Hq.
  assert (Hopen : skips (ctrl s2) = false).
  { destruct Hconf; rewrite ?events_since_update, ?events_since_refl in Hq;
      try (unfold count in Hq; simpl in Hq; lia); assumption. }
  destruct (sent_unskipped _ _ Hsent Hopen) as (ack & _ & _ & Hcode & Es2).
  destruct (confirmed_frame _ _ Hconf) as (Hres & _).
  exists ack. split; [| split; [exact Hcode |]].
  - rewrite acknowledgment_skip
      by apply signing_no_broadcast, (signed_events _ _ Hsign).
    rewrite Es2, events_since_update, events_since_record. reflexivity.
  - rewrite Hres, Es2. reflexivity.
Qed.

(** X3.  The confirmation step against a client that never has the
    receipt, for any wait time [w] other than zero and below 2^31 (the
    range in which [int(w)] is [w] whether [int] has 32 or 64 bits): it
    looks up [w + 2] times, sleeps [w + 1] times, and records the error
    "could not confirm transaction after [w] seconds"; nothing else of the
    controller changes. *)
Theorem TxConfirmation_gives_up s :
  let w := ConfirmationWaitTime (Behavior (ctrl s)) in
  let s' := snd (TxConfirmation s) in
  ExecutionError (ctrl s) = None ->
  DryRun (Behavior (ctrl s)) = false ->
  (0 < w < 2 ^ 31)%N ->
  snd (proto_Marshal (core.RawData (Tx (ctrl s)))) = None ->
  (forall h id, exists err, GrpcClient_GetTransactionInfoByID h id = Err err) ->
  ctrl s' = set_ExecutionError
              (Some (errors_New ("could not confirm transaction after "
                                 ++ fmt_d w ++ " seconds")%string)) (ctrl s) /\
  count is_query (events_since s s') = (N.to_nat w + 2)%nat /\
  count is_sleep (events_since s s') = (N.to_nat w + 1)%nat.
Proof.
  intros w s' Herr Hdry Hw Henc Hnever.
  assert (Hskip : skips (ctrl s) = false)
    by (unfold skips; rewrite Herr, Hdry; reflexivity).
  assert (Hw32 : (0 < w < 2 ^ 32)%N).
  { change (2 ^ 31)%N with 2147483648%N in Hw.
    change (2 ^ 32)%N with 4294967296%N. lia. }
  apply (confirmed_exhausted s s' (TxConfirmation_confirmed s)
           Hskip Hw32 Henc Hnever).
Qed.

Lemma confirmed_bounded s s' :
  confirmed s s' ->
  (ConfirmationWaitTime (Behavior (ctrl s)) < 2 ^ 32)%N ->
  (count is_query (events_since s s')
   <= N.to_nat (ConfirmationWaitTime (Behavior (ctrl s))) + 2)%nat /\
  (count is_sleep (events_since s s')
   = count is_query (events_since s s') - 1)%nat /\
  Forall (fun e => is_sleep e = true -> e = EvSleep time_Second)
         (events_since s s').
Proof.
  intros Hconf Hw.
  destruct Hconf as [Hs | Hs Hz | data err Hs Hpos Henc
                    | data s' Hs Hpos Henc Hpolled];
    rewrite ?events_since_update, ?events_since_refl;
    try (unfold count; simpl; repeat split; try lia; constructor).
  rewrite int_of_uint32_exact in Hpolled by exact Hw.
  destruct (polled_bounded _ _ _ _ Hpolled) as (Hq & Hsl).
  { pose proof (uint32_in_int _ Hw). lia. }
  destruct (polled_lookups _ _ _ _ Hpolled) as (Hall & _).
  split; [lia | split; [lia |]].
  eapply Forall_impl; [| exact Hall].
  intros e [-> | [r ->]]; [reflexivity | discriminate].
Qed.

(** X4.  Whatever the client answers, the confirmation step makes at most
    [w + 2] lookups for a wait time [w] of 32 bits, makes one sleep less
    than lookups, every sleep is of one second, and it calls nothing but
    the lookup and the sleep. *)
Theorem TxConfirmation_is_bounded s :
  let w := ConfirmationWaitTime (Behavior (ctrl s)) in
  let s' := snd (TxConfirmation s) in
  (w < 2 ^ 32)%N ->
  (count is_query (events_since s s') <= N.to_nat w + 2)%nat /\
  (count is_sleep (events_since s s')
   = count is_query (events_since s s') - 1)%nat /\
  Forall (fun e => is_sleep e = true -> e = EvSleep time_Second)
         (events_since s s') /\
  forallb is_poll (events_since s s') = true.
Proof.
  intros w s' Hw. pose proof (TxConfirmation_confirmed s) as Hconf.
  destruct (confirmed_bounded _ _ Hconf Hw) as (H1 & H2 & H3).
  repeat (split; [assumption |]).
  apply (confirmed_polls _ _ Hconf).
Qed.

(** X5.  Every lookup of an execution asks for the hash of the
    controller's transaction, as [TransactionHash] returns it once the
    execution is over. *)
Theorem lookups_ask_for_the_transaction_hash s id r :
  let s' := snd (ExecuteTransaction s) in
  In (EvGetTransactionInfoByID id r) (events_since s s') ->
  fst (TransactionHash s') = (id, None).
Proof.
  destruct (ExecuteTransaction_ways s)
    as (s1 & s2 & s3 & Hdis & Hsign & Hsent & Hconf & Erun & Hev).
  rewrite Erun. simpl. rewrite Hev. intros Hin.
  apply in_app_or in Hin. destruct Hin as [Hin | Hin].
  { pose proof (signed_events _ _ Hsign) as H.
    rewrite forallb_forall in H. apply H in Hin. discriminate. }
  apply in_app_or in Hin. destruct Hin as [Hin | Hin].
  { pose proof (sent_broadcasts _ _ Hsent) as H.
    rewrite forallb_forall in H. apply H in Hin. discriminate. }
  destruct Hconf as [Hs | Hs Hz | data err Hs Hpos Henc
                    | data s3 Hs Hpos Henc Hpolled];
    rewrite ?events_since_update, ?events_since_refl in Hin;
    try contradiction.
  destruct (polled_lookups _ _ _ _ Hpolled) as (Hall & Htx).
  rewrite Forall_forall in Hall. apply Hall in Hin.
  destruct Hin as [Hin | [r' Hin]]; [discriminate |].
  injection Hin as -> _.
  unfold TransactionHash, GetRawData, bind, this, ret. cbn beta.
  rewrite Htx, Henc. reflexivity.
Qed.

(** Where an event of one kind sits among the events of the three
    stages. *)
Lemma signing_event_place e e1 e2 e3 :
  forallb is_broadcast e2 = true -> forallb is_poll e3 = true ->
  In e (e1 ++ e2 ++ e3) -> is_signing e = true -> In e e1.
Proof.
  intros H2 H3 Hin He. rewrite forallb_forall in H2, H3.
  apply in_app_or in Hin. destruct Hin as [Hin | Hin]; [exact Hin |].
  apply in_app_or in Hin. destruct Hin as [Hin | Hin].
  - apply H2 in Hin. destruct e; discriminate.
  - apply H3 in Hin. destruct e; discriminate.
Qed.

Lemma broadcast_event_place e e1 e2 e3 :
  forallb is_signing e1 = true -> forallb is_poll e3 = true ->
  In e (e1 ++ e2 ++ e3) -> is_broadcast e = true -> In e e2.
Proof.
  intros H1 H3 Hin He. rewrite forallb_forall in H1, H3.
  apply in_app_or in Hin. destruct Hin as [Hin | Hin].
  - apply H1 in Hin. destruct e; discriminate.
  - apply in_app_or in Hin. destruct Hin as [Hin | Hin]; [exact Hin |].
    apply H3 in Hin. destruct e; discriminate.
Qed.

Lemma sent_Sender s s' :
  sent s s' ->
  Sender (ctrl s') = Sender (ctrl s) /\
  resultError (ctrl s') = resultError (ctrl s).
Proof. destruct 1; split; reflexivity. Qed.

Lemma confirmed_Sender s s' :
  confirmed s s' -> Sender (ctrl s') = Sender (ctrl s).
Proof.
  destruct 1 as [Hs | Hs Hz | data err Hs Hpos Henc
                | data s' Hs Hpos Henc Hpolled]; try reflexivity.
  destruct (polled_events _ _ _ _ Hpolled) as (_ & _ & Hctrl).
  rewrite Hctrl. destruct (receipt_found _); [| reflexivity].
  unfold store_receipt. destruct (negb _); reflexivity.
Qed.

(** A stage that starts with the error slot set ends the pipeline. *)
Lemma pipeline_ends s1 s2 s3 :
  sent s1 s2 -> confirmed s2 s3 ->
  not_nil (ExecutionError (ctrl s1)) = true -> s2 = s1 /\ s3 = s1.
Proof.
  intros Hsent Hconf Hset. apply skips_error in Hset.
  assert (s2 = s1) by (apply (sent_skips _ _ Hsent Hset)). subst s2.
  split; [reflexivity | apply (confirmed_skips _ _ Hconf Hset)].
Qed.

(** X6.  An error of the signer (key store or hardware) is the result of
    [ExecuteTransaction]: nothing is broadcast, no receipt is looked up,
    and the transaction, the acknowledgment and the receipt are as they
    were. *)
Theorem signing_failure_is_fatal s err :
  let s' := snd (ExecuteTransaction s) in
  (exists a tx, In (EvKeyStoreSignTx a tx (Err err)) (events_since s s')) \/
  (exists data, In (EvLedgerSignTx data (Err err)) (events_since s s')) ->
  fst (ExecuteTransaction s) = Some err /\
  count is_broadcast (events_since s s') = 0%nat /\
  count is_query (events_since s s') = 0%nat /\
  Tx (ctrl s') = Tx (ctrl s) /\
  Result (ctrl s') = Result (ctrl s) /\
  Receipt (ctrl s') = Receipt (ctrl s).
Proof.
  destruct (ExecuteTransaction_ways s)
    as (s1 & s2 & s3 & Hdis & Hsign & Hsent & Hconf & Erun & Hev).
  rewrite Erun. simpl. rewrite Hev. intros Hfail.
  assert (Hin : exists e, In e (events_since s s1) /\
            ((exists a tx, e = EvKeyStoreSignTx a tx (Err err)) \/
             (exists data, e = EvLedgerSignTx data (Err err)))).
  { destruct Hfail as [(a & tx & Hin) | (data & Hin)];
      pose proof (signing_event_place _ _ _ _ (sent_broadcasts _ _ Hsent)
                    (confirmed_polls _ _ Hconf) Hin eq_refl) as Hin1;
      eexists; (split; [exact Hin1 |]).
    - left. eauto.
    - right. eauto. }
  destruct Hin as (e & Hin & He).
  assert (Hs1 : s1 = update (set_ExecutionError (Some err)) (record e s)).
  { destruct Hdis;
      rewrite ?events_since_update, ?events_since_record,
        ?events_since_refl in Hin; simpl in Hin;
      try contradiction; destruct Hin as [Hin | []]; subst e;
      destruct He as [(a & tx & He) | (data & He)];
      inversion He; subst; reflexivity. }
  destruct (pipeline_ends s1 s2 s3 Hsent Hconf) as (-> & ->);
    [rewrite Hs1; reflexivity |].
  rewrite !events_since_refl, !app_nil_r.
  rewrite (signing_no_broadcast _ (signed_events _ _ Hsign)).
  rewrite (signing_no_query _ (signed_events _ _ Hsign)).
  rewrite Hs1. repeat split.
Qed.

(** X7.  The transaction handed to [Broadcast] is the one the controller
    holds at the end: the answer of the key store after software signing,
    the given transaction with the signature of the device appended after
    hardware signing, and the device was given the encoding of the raw
    payload. *)
Theorem broadcast_carries_the_signed_transaction s tx r :
  let s' := snd (ExecuteTransaction s) in
  In (EvBroadcast tx r) (events_since s s') ->
  tx = Tx (ctrl s') /\
  (forall a tx0 signedTransaction,
     In (EvKeyStoreSignTx a tx0 (Ok signedTransaction)) (events_since s s') ->
     tx = signedTransaction /\ tx0 = Tx (ctrl s) /\
     a = Account (Sender (ctrl s))) /\
  (forall data signature,
     In (EvLedgerSignTx data (Ok signature)) (events_since s s') ->
     data = fst (proto_Marshal (core.RawData (Tx (ctrl s)))) /\
     tx = core.set_Signature (core.Signature (Tx (ctrl s)) ++ [signature])
            (Tx (ctrl s))).
Proof.
  destruct (ExecuteTransaction_ways s)
    as (s1 & s2 & s3 & Hdis & Hsign & Hsent & Hconf & Erun & Hev).
  rewrite Erun. simpl. rewrite Hev. intros Hin.
  apply (broadcast_event_place _ _ _ _ (signed_events _ _ Hsign)
           (confirmed_polls _ _ Hconf)) in Hin; [| reflexivity].
  destruct (confirmed_frame _ _ Hconf) as (_ & Htx3 & _).
  destruct (sent_frame _ _ Hsent) as (_ & _ & Htx2 & _).
  assert (Htx : tx = Tx (ctrl s1)).
  { destruct Hsent;
      rewrite ?events_since_update, ?events_since_record,
        ?events_since_refl in Hin; simpl in Hin;
      try contradiction; destruct Hin as [Hin | []];
      inversion Hin; reflexivity. }
  split; [congruence |]. subst tx. split.
  - intros a tx0 tx1 Hks.
    apply (signing_event_place _ _ _ _ (sent_broadcasts _ _ Hsent)
             (confirmed_polls _ _ Hconf)) in Hks; [| reflexivity].
    destruct Hdis;
      rewrite ?events_since_update, ?events_since_record,
        ?events_since_refl in Hks; simpl in Hks;
      try contradiction; destruct Hks as [Hks | []];
      inversion Hks; subst; repeat split.
  - intros data signature Hl.
    apply (signing_event_place _ _ _ _ (sent_broadcasts _ _ Hsent)
             (confirmed_polls _ _ Hconf)) in Hl; [| reflexivity].
    destruct Hdis;
      rewrite ?events_since_update, ?events_since_record,
        ?events_since_refl in Hl; simpl in Hl;
      try contradiction; destruct Hl as [Hl | []];
      inversion Hl; subst; repeat split.
Qed.

(** X8.  An error of the [Broadcast] call itself (no acknowledgment) is
    the result of [ExecuteTransaction]; no receipt is looked up and the
    acknowledgment and the receipt are as they were. *)
Theorem broadcast_error_is_fatal s tx err :
  let s' := snd (ExecuteTransaction s) in
  In (EvBroadcast tx (Err err)) (events_since s s') ->
  fst (ExecuteTransaction s) = Some err /\
  count is_query (events_since s s') = 0%nat /\
  Result (ctrl s') = Result (ctrl s) /\
  Receipt (ctrl s') = Receipt (ctrl s).
Proof.
  destruct (ExecuteTransaction_ways s)
    as (s1 & s2 & s3 & Hdis & Hsign & Hsent & Hconf & Erun & Hev).
  rewrite Erun. simpl. rewrite Hev. intros Hin.
  apply (broadcast_event_place _ _ _ _ (signed_events _ _ Hsign)
           (confirmed_polls _ _ Hconf)) in Hin; [| reflexivity].
  assert (Hs2 : s2 = update (set_ExecutionError (Some err))
                       (record (EvBroadcast tx (Err err)) s1)).
  { destruct Hsent;
      rewrite ?events_since_update, ?events_since_record,
        ?events_since_refl in Hin; simpl in Hin;
      try contradiction; destruct Hin as [Hin | []];
      inversion Hin; subst; reflexivity. }
  assert (s3 = s2).
  { apply (confirmed_skips _ _ Hconf). rewrite Hs2. reflexivity. }
  subst s3. rewrite events_since_refl, app_nil_r, count_app.
  rewrite (signing_no_query _ (signed_events _ _ Hsign)).
  rewrite (broadcast_no_query _ (sent_broadcasts _ _ Hsent)).
  rewrite Hs2. simpl.
  rewrite (signed_Result _ _ Hsign), (signed_Receipt _ _ Hsign).
  repeat split.
Qed.

(** An acknowledgment with code 0 among the events of an execution: the
    broadcast stage stored it and left the guard of the confirmation stage
    open. *)
Lemma accepted_broadcast s s1 s2 s3 ack :
  signed s s1 -> sent s1 s2 -> confirmed s2 s3 ->
  acknowledgment (events_since s s1 ++ events_since s1 s2 ++ events_since s2 s3)
    = Some ack ->
  api.Code ack = 0 ->
  skips (ctrl s2) = false /\
  Result (ctrl s2) = Some ack /\
  count is_broadcast (events_since s1 s2) = 1%nat.
Proof.
  intros Hsign Hsent Hconf Hack Hcode.
  rewrite acknowledgment_skip in Hack
    by apply signing_no_broadcast, (signed_events _ _ Hsign).
  rewrite acknowledgment_app in Hack.
  rewrite (acknowledgment_none (events_since s2 s3)) in Hack
    by apply poll_no_broadcast, (confirmed_polls _ _ Hconf).
  destruct Hsent as [Hs | err Hs Hb | ack' Hs Hb Hc | ack' Hs Hb Hc];
    rewrite ?events_since_update, ?events_since_record,
      ?events_since_refl in *; simpl in Hack; try discriminate;
    injection Hack as ->; [contradiction |].
  repeat split. exact Hs.
Qed.

(** X9.  When the raw payload does not encode and the caller waits for a
    confirmation, the transaction is broadcast all the same (the software
    path and the broadcast do not encode it); after the acknowledgment
    [ExecuteTransaction] fails with "could not get Tx hash", in place of
    the error of the encoder, without any lookup. *)
Theorem unencodable_transaction_fails_after_broadcast s ack err :
  let s' := snd (ExecuteTransaction s) in
  acknowledgment (events_since s s') = Some ack ->
  api.Code ack = 0 ->
  (0 < ConfirmationWaitTime (Behavior (ctrl s)))%N ->
  snd (proto_Marshal (core.RawData (Tx (ctrl s')))) = Some err ->
  fst (ExecuteTransaction s) = Some (errors_New "could not get Tx hash") /\
  count is_broadcast (events_since s s') = 1%nat /\
  count is_query (events_since s s') = 0%nat /\
  Result (ctrl s') = Some ack /\
  Receipt (ctrl s') = Receipt (ctrl s).
Proof.
  destruct (ExecuteTransaction_ways s)
    as (s1 & s2 & s3 & Hdis & Hsign & Hsent & Hconf & Erun & Hev).
  rewrite Erun. simpl. rewrite Hev. intros Hack Hcode Hwait Henc.
  destruct (accepted_broadcast s s1 s2 s3 ack Hsign Hsent Hconf Hack Hcode)
    as (Hopen & Hres & Hone).
  destruct (sent_frame _ _ Hsent) as (Hrec2 & Hbeh2 & _).
  destruct (confirmed_frame _ _ Hconf) as (_ & Htx3 & _).
  rewrite !count_app, Hone.
  rewrite (signing_no_broadcast _ (signed_events _ _ Hsign)).
  rewrite (signing_no_query _ (signed_events _ _ Hsign)).
  rewrite (broadcast_no_query _ (sent_broadcasts _ _ Hsent)).
  rewrite (poll_no_broadcast _ (confirmed_polls _ _ Hconf)).
  rewrite <- (signed_Behavior _ _ Hsign), <- Hbeh2 in Hwait.
  rewrite <- (signed_Receipt _ _ Hsign), <- Hrec2.
  destruct Hconf as [Hs | Hs Hz | data err' Hs Hpos Henc'
                    | data s3 Hs Hpos Henc' Hpolled].
  - congruence.
  - lia.
  - rewrite events_since_update, events_since_refl. repeat split. exact Hres.
  - rewrite Htx3, Henc' in Henc. discriminate.
Qed.

(** X10.  A nil result of a run that is not a dry run means: the broadcast
    was acknowledged with code 0, the acknowledgment is in [Result], and a
    receipt is in [Receipt]: the one a lookup found when the caller waits,
    the empty one, without any lookup, when the wait time is zero. *)
Theorem nil_result_of_a_live_run s :
  let s' := snd (ExecuteTransaction s) in
  fst (ExecuteTransaction s) = None ->
  DryRun (Behavior (ctrl s)) = false ->
  exists ack txi,
    acknowledgment (events_since s s') = Some ack /\
    api.Code ack = 0 /\
    Result (ctrl s') = Some ack /\
    Receipt (ctrl s') = Some txi /\
    if (0 <? ConfirmationWaitTime (Behavior (ctrl s)))%N
    then receipt_found (events_since s s') = Some txi
    else txi = empty_receipt /\ count is_query (events_since s s') = 0%nat.
Proof.
  destruct (ExecuteTransaction_ways s)
    as (s1 & s2 & s3 & Hdis & Hsign & Hsent & Hconf & Erun & Hev).
  rewrite Erun. simpl. rewrite Hev. intros Hnil Hlive.
  destruct (sent_frame _ _ Hsent) as (_ & Hbeh2 & _).
  assert (Hbeh : Behavior (ctrl s2) = Behavior (ctrl s))
    by (rewrite Hbeh2; apply (signed_Behavior _ _ Hsign)).
  assert (Hopen : skips (ctrl s2) = false).
  { destruct Hconf as [Hs | | | ]; try assumption.
    unfold skips in *. rewrite Hnil, Hbeh, Hlive in Hs. discriminate. }
  destruct (sent_unskipped _ _ Hsent Hopen) as (ack & _ & _ & Hcode & Es2).
  destruct (confirmed_frame _ _ Hconf) as (Hres3 & _).
  assert (Hack : acknowledgment
            (events_since s s1 ++ events_since s1 s2 ++ events_since s2 s3)
            = Some ack).
  { rewrite acknowledgment_skip
      by apply signing_no_broadcast, (signed_events _ _ Hsign).
    rewrite Es2, events_since_update, events_since_record. reflexivity. }
  assert (Hfound : receipt_found
            (events_since s s1 ++ events_since s1 s2 ++ events_since s2 s3)
            = receipt_found (events_since s2 s3)).
  { rewrite receipt_found_skip
      by apply signing_no_query, (signed_events _ _ Hsign).
    apply receipt_found_skip, broadcast_no_query, (sent_broadcasts _ _ Hsent). }
  assert (Hq : count is_query
            (events_since s s1 ++ events_since s1 s2 ++ events_since s2 s3)
            = count is_query (events_since s2 s3)).
  { rewrite !count_app.
    rewrite (signing_no_query _ (signed_events _ _ Hsign)).
    rewrite (broadcast_no_query _ (sent_broadcasts _ _ Hsent)). reflexivity. }
  rewrite Hfound, Hq. rewrite <- Hbeh.
  assert (Hres : Result (ctrl s3) = Some ack)
    by (rewrite Hres3, Es2; reflexivity).
  destruct Hconf as [Hs | Hs Hz | data err' Hs Hpos Henc'
                    | data s3 Hs Hpos Henc' Hpolled].
  - congruence.
  - exists ack, empty_receipt. rewrite Hz.
    change (0 <? 0)%N with false. cbv iota.
    split; [exact Hack |]. split; [exact Hcode |]. split; [exact Hres |].
    split; [reflexivity |]. split; [reflexivity |].
    rewrite events_since_update, events_since_refl. reflexivity.
  - discriminate Hnil.
  - destruct (polled_events _ _ _ _ Hpolled) as (_ & _ & Hctrl).
    apply N.ltb_lt in Hpos. rewrite Hpos.
    destruct (receipt_found (events_since s2 s3)) as [txi |].
    + exists ack, txi. repeat split; try assumption.
      rewrite Hctrl. apply store_receipt_frame.
    + rewrite Hctrl in Hnil. discriminate Hnil.
Qed.

(** X11.  The informational error is written only by a receipt: after
    [ExecuteTransaction] it is the error whose text is the result message
    of the receipt that a lookup found (the bytes of the text are the
    bytes of the message) when the status of that receipt is not zero; in
    every other case it is as it was before the call (a receipt with
    status zero does not clear it). *)
Theorem resultError_reports_the_receipt s :
  let s' := snd (ExecuteTransaction s) in
  resultError (ctrl s') =
    match receipt_found (events_since s s') with
    | Some txi =>
        if core.Result txi =? 0 then resultError (ctrl s)
        else Some (errors_New (string_of_bytes (core.ResMessage txi)))
    | None => resultError (ctrl s)
    end /\
  (forall txi,
     receipt_found (events_since s s') = Some txi ->
     core.Result txi <> 0 ->
     exists e, resultError (ctrl s') = Some e /\
               list_byte_of_string (Error e) = core.ResMessage txi).
Proof.
  intros s'.
  assert (Heq : resultError (ctrl s') =
    match receipt_found (events_since s s') with
    | Some txi =>
        if core.Result txi =? 0 then resultError (ctrl s)
        else Some (errors_New (string_of_bytes (core.ResMessage txi)))
    | None => resultError (ctrl s)
    end).
  { unfold s'.
    destruct (ExecuteTransaction_ways s)
      as (s1 & s2 & s3 & Hdis & Hsign & Hsent & Hconf & Erun & Hev).
    rewrite Erun. simpl. rewrite Hev.
    rewrite receipt_found_skip
      by apply signing_no_query, (signed_events _ _ Hsign).
    rewrite receipt_found_skip
      by apply broadcast_no_query, (sent_broadcasts _ _ Hsent).
    rewrite <- (signed_resultError _ _ Hsign).
    destruct (sent_Sender _ _ Hsent) as (_ & <-).
    destruct Hconf as [Hs | Hs Hz | data err' Hs Hpos Henc'
                      | data s3 Hs Hpos Henc' Hpolled];
      rewrite ?events_since_update, ?events_since_refl; try reflexivity.
    destruct (polled_events _ _ _ _ Hpolled) as (_ & _ & Hctrl).
    rewrite Hctrl. destruct (receipt_found (events_since s2 s3)) as [txi |];
      [| reflexivity].
    unfold store_receipt. destruct (core.Result txi =? 0); reflexivity. }
  split; [exact Heq |].
  intros txi Hfound Hstatus. rewrite Heq, Hfound.
  apply Z.eqb_neq in Hstatus. rewrite Hstatus.
  eexists. split; [reflexivity |]. apply bytes_of_string_of_bytes.
Qed.

(** X12.  [ExecuteTransaction] never changes the behaviour or the sender
    of the controller.  Unless the signing is by software (where the
    transaction becomes whatever the key store returns), the raw payload
    is as it was, so is the transaction hash, and the signature list has
    grown by at most one signature at its end. *)
Theorem configuration_and_payload_are_kept s :
  let s' := snd (ExecuteTransaction s) in
  Behavior (ctrl s') = Behavior (ctrl s) /\
  Sender (ctrl s') = Sender (ctrl s) /\
  (SigningImpl (Behavior (ctrl s)) <> Software ->
   core.RawData (Tx (ctrl s')) = core.RawData (Tx (ctrl s)) /\
   fst (TransactionHash s') = fst (TransactionHash s) /\
   exists signatures,
     core.Signature (Tx (ctrl s'))
       = core.Signature (Tx (ctrl s)) ++ signatures /\
     (List.length signatures <= 1)%nat).
Proof.
  destruct (ExecuteTransaction_ways s)
    as (s1 & s2 & s3 & Hdis & Hsign & Hsent & Hconf & Erun & Hev).
  rewrite Erun. simpl.
  destruct (confirmed_frame _ _ Hconf) as (_ & Htx3 & Hbeh3 & _).
  destruct (sent_frame _ _ Hsent) as (_ & Hbeh2 & Htx2 & _).
  destruct (sent_Sender _ _ Hsent) as (Hsnd2 & _).
  pose proof (confirmed_Sender _ _ Hconf) as Hsnd3.
  destruct (dispatched_frame _ _ Hdis) as (_ & Hbeh1 & Hsnd1).
  split; [congruence | split; [congruence |]].
  intros Hnot.
  assert (Htx : core.RawData (Tx (ctrl s1)) = core.RawData (Tx (ctrl s)) /\
                exists signatures,
                  core.Signature (Tx (ctrl s1))
                    = core.Signature (Tx (ctrl s)) ++ signatures /\
                  (List.length signatures <= 1)%nat).
  { destruct Hdis; try contradiction;
      try (split; [reflexivity | exists []; rewrite app_nil_r; split;
                                  [reflexivity | simpl; lia]]).
    split; [reflexivity |]. exists [signature]. split; [reflexivity |].
    simpl. lia. }
  destruct Htx as (Hraw & Hsigs).
  rewrite Htx3, Htx2.
  split; [exact Hraw | split; [| exact Hsigs]].
  unfold TransactionHash, GetRawData, bind, this, ret. cbn beta.
  rewrite Htx3, Htx2, Hraw. 
  destruct (proto_Marshal (core.RawData (Tx (ctrl s)))) as [data [e |]];
    reflexivity.
Qed.

(** X13.  A dry run is the signing stage alone: [ExecuteTransaction] ends
    in the state the signing stage leaves and returns its error slot; the
    signer is still called, once, when the variant is [Software] or
    [Ledger] and no error is set. *)
Theorem dry_run_only_signs s :
  let s1 := snd (switch_SigningImpl s) in
  DryRun (Behavior (ctrl s)) = true ->
  ExecuteTransaction s = (ExecutionError (ctrl s1), s1) /\
  (ExecutionError (ctrl s) = None ->
   SigningImpl (Behavior (ctrl s)) = Software \/
   SigningImpl (Behavior (ctrl s)) = Ledger ->
   count is_signing (events_since s s1) = 1%nat).
Proof.
  intros s1 Hdry.
  pose proof (switch_SigningImpl_dispatched s) as Hdis. fold s1 in Hdis.
  destruct (ExecuteTransaction_stages s)
    as (t1 & t2 & t3 & Hsign & Hsent & Hconf & E1 & _ & _ & Erun & _).
  assert (t1 = s1) by (unfold s1; rewrite E1; reflexivity). subst t1.
  assert (Hskip : skips (ctrl s1) = true).
  { unfold skips. rewrite (signed_Behavior _ _ Hsign), Hdry.
    apply orb_true_r. }
  assert (t2 = s1) by (apply (sent_skips _ _ Hsent Hskip)). subst t2.
  assert (t3 = s1) by (apply (confirmed_skips _ _ Hconf Hskip)). subst t3.
  split; [exact Erun |].
  intros Hnil Hvariant.
  pose proof (signed_events _ _ Hsign) as Hall.
  rewrite (count_all _ _ Hall).
  clear - Hdis Hnil Hvariant.
  destruct Hdis as [Hn1 Hn2 | Herr | | | | ];
    rewrite ?events_since_update, ?events_since_record; try reflexivity.
  - destruct Hvariant; contradiction.
  - rewrite Hnil in Herr. discriminate.
Qed.

(** X14.  Once [ExecuteTransaction] has returned an error, calling it
    again on the same controller returns that error again and does
    nothing: no call, no change. *)
Theorem fatal_error_is_sticky s e :
  let s' := snd (ExecuteTransaction s) in
  fst (ExecuteTransaction s) = Some e ->
  ExecuteTransaction s' = (Some e, s').
Proof.
  destruct (ExecuteTransaction_stages s)
    as (s1 & s2 & s3 & _ & _ & _ & _ & _ & _ & Erun & _).
  rewrite Erun. simpl. intros He.
  assert (Hset : not_nil (ExecutionError (ctrl s3)) = true)
    by (rewrite He; reflexivity).
  unfold ExecuteTransaction, bind.
  rewrite (switch_SigningImpl_noop _ Hset).
  rewrite (SendSignedTx_skip _ (skips_error _ Hset)).
  rewrite (TxConfirmation_skip _ (skips_error _ Hset)).
  unfold this, ret. rewrite He. reflexivity.
Qed.

(** X15.  The default controller (no options: live run, software signing,
    no wait) on a key store that signs and a network that accepts:
    [ExecuteTransaction] returns nil after exactly two calls, the
    signature and the broadcast of the signed transaction, and the
    controller holds the signed transaction, the acknowledgment and the
    empty receipt. *)
Theorem default_execution senderAcct tx h signedTransaction ack :
  let c := NewController senderAcct tx [] in
  let signing := EvKeyStoreSignTx senderAcct tx (Ok signedTransaction) in
  KeyStore_SignTx h senderAcct tx = Ok signedTransaction ->
  GrpcClient_Broadcast (h ++ [signing]) signedTransaction = Ok ack ->
  api.Code ack = 0 ->
  ExecuteTransaction {| ctrl := c; history := h |} =
    (None,
     {| ctrl := set_Receipt (Some empty_receipt)
                  (set_Result (Some ack) (set_Tx signedTransaction c));
        history := (h ++ [signing])
                   ++ [EvBroadcast signedTransaction (Ok ack)] |}).
Proof.
  intros c signing Hks Hb Hcode. subst c signing.
  unfold ExecuteTransaction, switch_SigningImpl, SignTxForSending,
    SendSignedTx, TxConfirmation, bind, this, call, assign, ret.
  cbn. rewrite Hks. cbn. rewrite Hb. cbn. rewrite Hcode. reflexivity.
Qed.

End Further.

Lemma behavior_only_options options c :
  Forall behavior_only options ->
  fold_left (fun c option => option c) options c
  = set_Behavior
      (Behavior (fold_left (fun c option => option c) options c)) c.
Proof.
  intros Hall. revert c.
  induction Hall as [| option options Hoption _ IH]; intros c; simpl.
  - destruct c; reflexivity.
  - rewrite IH at 1. rewrite (Hoption c) at 2. reflexivity.
Qed.

(** X16.  A controller made by [NewController] with options that change
    nothing but the behaviour starts with the error slots, the
    acknowledgment and the receipt nil and with the transaction and the
    account it was given; without options it is a live run with software
    signing and no wait. *)
Theorem NewController_starts_clean senderAcct tx options :
  let c := NewController senderAcct tx options in
  Forall behavior_only options ->
  ExecutionError c = None /\ resultError c = None /\
  Result c = None /\ Receipt c = None /\
  Tx c = tx /\ Account (Sender c) = senderAcct /\
  (options = [] ->
   Behavior c = {| DryRun := false; SigningImpl := Software;
                   ConfirmationWaitTime := 0 |}).
Proof.
  intros c Hall. unfold c, NewController.
  rewrite (behavior_only_options _ _ Hall).
  repeat split. intros ->. reflexivity.
Qed.

(** * The further properties on concrete executions *)

Lemma lookups_follow_an_accepted_broadcast_witness :
  let s := fresh [WithConfirmationWaitTime 2] in
  let s' := snd (ExecuteTransaction (W := silent_world) s) in
  (0 < count is_query (events_since s s'))%nat /\
  (exists ack,
     acknowledgment (events_since s s') = Some ack /\
     api.Code ack = 0 /\
     Result (ctrl s') = Some ack).
Proof.
  intros s s'.
  assert (H : (0 < count is_query (events_since s s'))%nat)
    by (vm_compute; lia).
  split; [exact H |].
  exact (lookups_follow_an_accepted_broadcast (W := silent_world) s H).
Defined.

Lemma TxConfirmation_gives_up_witness :
  let s := fresh [WithConfirmationWaitTime 5] in
  let s' := snd (TxConfirmation (W := silent_world) s) in
  ExecutionError (ctrl s) = None /\
  DryRun (Behavior (ctrl s)) = false /\
  (0 < ConfirmationWaitTime (Behavior (ctrl s)) < 2 ^ 31)%N /\
  snd (proto_Marshal (World := silent_world) (core.RawData (Tx (ctrl s))))
    = None /\
  (forall h id, exists err,
     GrpcClient_GetTransactionInfoByID (World := silent_world) h id = Err err) /\
  (ctrl s' = set_ExecutionError
               (Some (errors_New "could not confirm transaction after 5 seconds"))
               (ctrl s) /\
   count is_query (events_since s s') = 7%nat /\
   count is_sleep (events_since s s') = 6%nat).
Proof.
  intros s s'.
  assert (H1 : ExecutionError (ctrl s) = None) by reflexivity.
  assert (H2 : DryRun (Behavior (ctrl s)) = false) by reflexivity.
  assert (H3 : (0 < ConfirmationWaitTime (Behavior (ctrl s)) < 2 ^ 31)%N)
    by (split; reflexivity).
  assert (H4 : snd (proto_Marshal (World := silent_world)
                      (core.RawData (Tx (ctrl s)))) = None) by reflexivity.
  assert (H5 : forall h id, exists err,
     GrpcClient_GetTransactionInfoByID (World := silent_world) h id = Err err)
    by (intros h id; exists not_found; reflexivity).
  repeat (split; [assumption |]).
  exact (TxConfirmation_gives_up (W := silent_world) s H1 H2 H3 H4 H5).
Defined.

Lemma TxConfirmation_is_bounded_witness :
  let s := fresh [WithConfirmationWaitTime 2] in
  let s' := snd (TxConfirmation (W := reverting_world) s) in
  (ConfirmationWaitTime (Behavior (ctrl s)) < 2 ^ 32)%N /\
  ((count is_query (events_since s s') <= 2 + 2)%nat /\
   (count is_sleep (events_since s s')
    = count is_query (events_since s s') - 1)%nat /\
   Forall (fun e => is_sleep e = true -> e = EvSleep time_Second)
          (events_since s s') /\
   forallb is_poll (events_since s s') = true).
Proof.
  intros s s'.
  assert (H : (ConfirmationWaitTime (Behavior (ctrl s)) < 2 ^ 32)%N)
    by reflexivity.
  split; [exact H |].
  exact (TxConfirmation_is_bounded (W := reverting_world) s H).
Defined.

Lemma lookups_ask_for_the_transaction_hash_witness :
  let s := fresh [WithConfirmationWaitTime 2] in
  let s' := snd (ExecuteTransaction (W := reverting_world) s) in
  let id := string_of_bytes a_payload in
  In (EvGetTransactionInfoByID id (Ok reverted)) (events_since s s') /\
  fst (TransactionHash (W := reverting_world) s') = (id, None).
Proof.
  intros s s' id.
  assert (H : In (EvGetTransactionInfoByID id (Ok reverted))
                 (events_since s s'))
    by (vm_compute; do 4 right; left; reflexivity).
  split; [exact H |].
  exact (lookups_ask_for_the_transaction_hash (W := reverting_world)
           s id (Ok reverted) H).
Defined.

Lemma signing_failure_is_fatal_witness :
  let s := fresh [WithConfirmationWaitTime 2] in
  let s' := snd (ExecuteTransaction (W := refusing_world) s) in
  In (EvKeyStoreSignTx an_account a_transaction (Err locked))
     (events_since s s') /\
  (fst (ExecuteTransaction (W := refusing_world) s) = Some locked /\
   count is_broadcast (events_since s s') = 0%nat /\
   count is_query (events_since s s') = 0%nat /\
   Tx (ctrl s') = Tx (ctrl s) /\
   Result (ctrl s') = Result (ctrl s) /\
   Receipt (ctrl s') = Receipt (ctrl s)).
Proof.
  intros s s'.
  assert (H : In (EvKeyStoreSignTx an_account a_transaction (Err locked))
                 (events_since s s'))
    by (vm_compute; left; reflexivity).
  split; [exact H |].
  apply (signing_failure_is_fatal (W := refusing_world) s locked).
  left. exists an_account, a_transaction. exact H.
Defined.

Lemma broadcast_carries_the_signed_transaction_witness :
  let s := fresh [] in
  let s' := snd (ExecuteTransaction (W := silent_world) s) in
  In (EvBroadcast a_signed_transaction (Ok acceptance)) (events_since s s') /\
  In (EvKeyStoreSignTx an_account a_transaction (Ok a_signed_transaction))
     (events_since s s') /\
  a_signed_transaction = Tx (ctrl s').
Proof.
  intros s s'.
  assert (H : In (EvBroadcast a_signed_transaction (Ok acceptance))
                 (events_since s s'))
    by (vm_compute; right; left; reflexivity).
  assert (Hks : In (EvKeyStoreSignTx an_account a_transaction
                      (Ok a_signed_transaction)) (events_since s s'))
    by (vm_compute; left; reflexivity).
  split; [exact H |]. split; [exact Hks |].
  apply (broadcast_carries_the_signed_transaction (W := silent_world)
           s a_signed_transaction (Ok acceptance) H).
Defined.

Lemma broadcast_error_is_fatal_witness :
  let s := fresh [WithConfirmationWaitTime 2] in
  let s' := snd (ExecuteTransaction (W := unreachable_world) s) in
  In (EvBroadcast a_signed_transaction (Err unreachable)) (events_since s s') /\
  (fst (ExecuteTransaction (W := unreachable_world) s) = Some unreachable /\
   count is_query (events_since s s') = 0%nat /\
   Result (ctrl s') = Result (ctrl s) /\
   Receipt (ctrl s') = Receipt (ctrl s)).
Proof.
  intros s s'.
  assert (H : In (EvBroadcast a_signed_transaction (Err unreachable))
                 (events_since s s'))
    by (vm_compute; right; left; reflexivity).
  split; [exact H |].
  exact (broadcast_error_is_fatal (W := unreachable_world)
           s a_signed_transaction unreachable H).
Defined.

Lemma unencodable_transaction_fails_after_broadcast_witness :
  let s := fresh [WithConfirmationWaitTime 2] in
  let s' := snd (ExecuteTransaction (W := unencodable_world) s) in
  let err := errors_New "proto: required field not set" in
  acknowledgment (events_since s s') = Some acceptance /\
  api.Code acceptance = 0 /\
  (0 < ConfirmationWaitTime (Behavior (ctrl s)))%N /\
  snd (proto_Marshal (World := unencodable_world)
         (core.RawData (Tx (ctrl s')))) = Some err /\
  (fst (ExecuteTransaction (W := unencodable_world) s)
     = Some (errors_New "could not get Tx hash") /\
   count is_broadcast (events_since s s') = 1%nat /\
   count is_query (events_since s s') = 0%nat /\
   Result (ctrl s') = Some acceptance /\
   Receipt (ctrl s') = Receipt (ctrl s)).
Proof.
  intros s s' err.
  assert (H1 : acknowledgment (events_since s s') = Some acceptance)
    by (vm_compute; reflexivity).
  assert (H2 : api.Code acceptance = 0) by reflexivity.
  assert (H3 : (0 < ConfirmationWaitTime (Behavior (ctrl s)))%N)
    by reflexivity.
  assert (H4 : snd (proto_Marshal (World := unencodable_world)
                      (core.RawData (Tx (ctrl s')))) = Some err)
    by reflexivity.
  repeat (split; [assumption |]).
  exact (unencodable_transaction_fails_after_broadcast
           (W := unencodable_world) s acceptance err H1 H2 H3 H4).
Defined.

Lemma nil_result_of_a_live_run_witness :
  let s := fresh [WithConfirmationWaitTime 2] in
  let s' := snd (ExecuteTransaction (W := reverting_world) s) in
  fst (ExecuteTransaction (W := reverting_world) s) = None /\
  DryRun (Behavior (ctrl s)) = false /\
  (exists ack txi,
     acknowledgment (events_since s s') = Some ack /\
     api.Code ack = 0 /\
     Result (ctrl s') = Some ack /\
     Receipt (ctrl s') = Some txi /\
     if (0 <? ConfirmationWaitTime (Behavior (ctrl s)))%N
     then receipt_found (events_since s s') = Some txi
     else txi = empty_receipt /\
          count is_query (events_since s s') = 0%nat).
Proof.
  intros s s'.
  assert (H1 : fst (ExecuteTransaction (W := reverting_world) s) = None)
    by (vm_compute; reflexivity).
  assert (H2 : DryRun (Behavior (ctrl s)) = false) by reflexivity.
  repeat (split; [assumption |]).
  exact (nil_result_of_a_live_run (W := reverting_world) s H1 H2).
Defined.

Lemma configuration_and_payload_are_kept_witness :
  let s := fresh [WithSigningImpl Ledger; WithConfirmationWaitTime 2] in
  let s' := snd (ExecuteTransaction (W := reverting_world) s) in
  SigningImpl (Behavior (ctrl s)) <> Software /\
  (core.RawData (Tx (ctrl s')) = core.RawData (Tx (ctrl s)) /\
   fst (TransactionHash (W := reverting_world) s')
     = fst (TransactionHash (W := reverting_world) s) /\
   exists signatures,
     core.Signature (Tx (ctrl s'))
       = core.Signature (Tx (ctrl s)) ++ signatures /\
     (List.length signatures <= 1)%nat).
Proof.
  intros s s'.
  assert (H : SigningImpl (Behavior (ctrl s)) <> Software)
    by (vm_compute; discriminate).
  split; [exact H |].
  destruct (configuration_and_payload_are_kept (W := reverting_world) s)
    as (_ & _ & Hkept).
  exact (Hkept H).
Defined.

Lemma dry_run_only_signs_witness :
  let s := fresh [WithDryRun true; WithSigningImpl Ledger] in
  let s1 := snd (switch_SigningImpl (W := silent_world) s) in
  DryRun (Behavior (ctrl s)) = true /\
  ExecutionError (ctrl s) = None /\
  SigningImpl (Behavior (ctrl s)) = Ledger /\
  ExecuteTransaction (W := silent_world) s = (ExecutionError (ctrl s1), s1) /\
  count is_signing (events_since s s1) = 1%nat.
Proof.
  intros s s1.
  assert (H1 : DryRun (Behavior (ctrl s)) = true) by reflexivity.
  assert (H2 : ExecutionError (ctrl s) = None) by reflexivity.
  assert (H3 : SigningImpl (Behavior (ctrl s)) = Ledger) by reflexivity.
  repeat (split; [assumption |]).
  destruct (dry_run_only_signs (W := silent_world) s H1) as (Hrun & Hsigns).
  split; [exact Hrun |]. apply (Hsigns H2). right. exact H3.
Defined.

Lemma fatal_error_is_sticky_witness :
  let s := fresh [WithConfirmationWaitTime 2] in
  let s' := snd (ExecuteTransaction (W := rejecting_world) s) in
  fst (ExecuteTransaction (W := rejecting_world) s)
    = Some (bad_transaction rejection) /\
  ExecuteTransaction (W := rejecting_world) s'
    = (Some (bad_transaction rejection), s').
Proof.
  intros s s'.
  assert (H : fst (ExecuteTransaction (W := rejecting_world) s)
              = Some (bad_transaction rejection))
    by (vm_compute; reflexivity).
  split; [exact H |].
  exact (fatal_error_is_sticky (W := rejecting_world) s
           (bad_transaction rejection) H).
Defined.

Lemma default_execution_witness :
  let c := NewController an_account a_transaction [] in
  let signing :=
    EvKeyStoreSignTx an_account a_transaction (Ok a_signed_transaction) in
  KeyStore_SignTx (World := silent_world) [] an_account a_transaction
    = Ok a_signed_transaction /\
  GrpcClient_Broadcast (World := silent_world) ([] ++ [signing])
    a_signed_transaction = Ok acceptance /\
  api.Code acceptance = 0 /\
  ExecuteTransaction (W := silent_world) {| ctrl := c; history := [] |} =
    (None,
     {| ctrl := set_Receipt (Some empty_receipt)
                  (set_Result (Some acceptance)
                     (set_Tx a_signed_transaction c));
        history := ([] ++ [signing])
                   ++ [EvBroadcast a_signed_transaction (Ok acceptance)] |}).
Proof.
  intros c signing.
  assert (H1 : KeyStore_SignTx (World := silent_world) [] an_account
                 a_transaction = Ok a_signed_transaction) by reflexivity.
  assert (H2 : GrpcClient_Broadcast (World := silent_world) ([] ++ [signing])
                 a_signed_transaction = Ok acceptance) by reflexivity.
  assert (H3 : api.Code acceptance = 0) by reflexivity.
  repeat (split; [assumption |]).
  exact (default_execution (W := silent_world) an_account a_transaction []
           a_signed_transaction acceptance H1 H2 H3).
Defined.

Lemma NewController_starts_clean_witness :
  let options := [WithDryRun true; WithConfirmationWaitTime 2;
                  WithSigningImpl Ledger] in
  let c := NewController an_account a_transaction options in
  Forall behavior_only options /\
  ExecutionError c = None /\ resultError c = None /\
  Result c = None /\ Receipt c = None /\
  Tx c = a_transaction /\ Account (Sender c) = an_account.
Proof.
  intros options c.
  assert (H : Forall behavior_only options)
    by (repeat constructor; intros x; reflexivity).
  split; [exact H |].
  destruct (NewController_starts_clean an_account a_transaction options H)
    as (H1 & H2 & H3 & H4 & H5 & H6 & _).
  repeat (split; [assumption |]). assumption.
Defined.

Lemma resultError_reports_the_receipt_witness :
  let s := fresh [WithConfirmationWaitTime 2] in
  let s' := snd (ExecuteTransaction (W := reverting_world) s) in
  receipt_found (events_since s s') = Some reverted /\
  core.Result reverted <> 0 /\
  (exists e, resultError (ctrl s') = Some e /\
             list_byte_of_string (Error e) = core.ResMessage reverted) /\
  resultError (ctrl s') = Some (errors_New "oog").
Proof.
  intros s s'.
  assert (H1 : receipt_found (events_since s s') = Some reverted)
    by (vm_compute; reflexivity).
  assert (H2 : core.Result reverted <> 0) by (simpl; lia).
  repeat (split; [assumption |]).
  destruct (resultError_reports_the_receipt (W := reverting_world) s)
    as (Heq & Hbytes).
  split; [exact (Hbytes reverted H1 H2) |].
  fold s' in Heq. rewrite Heq, H1. reflexivity.
Defined.
